(** * Resource accounting of chaosblade-exec-os: cgroup detection, CPU quota,
      memory limits and CPU usage sampling.

    The Go code is embedded shallowly.  Go strings are byte strings
    ([string], one [ascii] per byte); Go's [int], [int64] and [uint64] are
    integers in [Z] with the wrap-around written out; [float64] is the
    kernel's binary64 [float]; the files, the mount table and the figures of
    the host are fields of an environment record [Env]; a call either
    returns, panics or exits the process ([outcome]). *)

From Stdlib Require Import ZArith List String Ascii Bool Lia.
From Stdlib Require Import DecimalString DecimalPos.
From Stdlib Require Import Floats.PrimFloat Floats.SpecFloat Floats.FloatOps.
From Stdlib Require Import Floats.FloatAxioms.
From Stdlib Require Import Numbers.Cyclic.Int63.Uint63.
Import ListNotations.

Local Open Scope string_scope.
Local Open Scope Z_scope.

(** ** Machine integers *)

Module GoInt.

Definition minInt64 : Z := - 2 ^ 63.
Definition maxInt64 : Z := 2 ^ 63 - 1.
Definition maxUint64 : Z := 2 ^ 64 - 1.

(** The value of a 64-bit two's complement word: what an [int64]
    computation keeps of the mathematical result. *)
Definition wrap64 (z : Z) : Z := (z + 2 ^ 63) mod 2 ^ 64 - 2 ^ 63.

Definition add64 (a b : Z) : Z := wrap64 (a + b).
Definition sub64 (a b : Z) : Z := wrap64 (a - b).

(** [uint64] addition, and the conversion [int64(u)] of a [uint64]. *)
Definition addU64 (a b : Z) : Z := (a + b) mod 2 ^ 64.
Definition int64_of_uint64 (u : Z) : Z := wrap64 u.

(** [float64(n)] for an [int64] (or [int]) [n]: the nearest binary64. *)
Definition float64_of_int (z : Z) : float :=
  if z =? minInt64
  then PrimFloat.opp (PrimFloat.mul 2%float (PrimFloat.of_uint63 (Uint63.of_Z (2 ^ 62))))
  else if z <? 0 then PrimFloat.opp (PrimFloat.of_uint63 (Uint63.of_Z (- z)))
  else PrimFloat.of_uint63 (Uint63.of_Z z).

(** [float64(u)] for a [uint64] [u]: above 63 bits the value is halved
    with its lowest bit kept sticky, converted and doubled, which rounds as
    the direct conversion does. *)
Definition float64_of_uint64 (u : Z) : float :=
  if u <? 2 ^ 63 then PrimFloat.of_uint63 (Uint63.of_Z u)
  else PrimFloat.mul 2%float
         (PrimFloat.of_uint63 (Uint63.of_Z (Z.lor (Z.shiftr u 1) (Z.land u 1)))).

End GoInt.

(** ** Errors and outcomes *)

(** The [error] values the code under study can produce or pass on. *)
Inductive error : Type :=
| ErrSyntax (fn num : string)          (* strconv.ErrSyntax in a *NumError *)
| ErrRange (fn num : string)           (* strconv.ErrRange in a *NumError *)
| ErrReadFile (path : string)          (* os.ReadFile failed *)
| ErrExternal (what : string)          (* an error of a library outside the repository *)
| Errorf (msg : string) (cause : error). (* fmt.Errorf(msg, cause) *)

(** How a call ends: it returns, it panics (a failed type assertion, an index
    out of range), or it ends the process through [log.Fatalf]. *)
Inductive outcome (A : Type) : Type :=
| Returns (a : A)
| Panics
| Exits.
Arguments Returns {A} a.
Arguments Panics {A}.
Arguments Exits {A}.

(** ** Package strings *)

Module strings.

Definition byte (c : ascii) : N := N_of_ascii c.

(** The six ASCII white-space bytes: tab, line feed, vertical tab, form
    feed, carriage return, space. *)
Definition asciiSpace (c : ascii) : bool :=
  let b := byte c in
  ((9 <=? b) && (b <=? 13) || (b =? 32))%N.

(** The width in bytes of the white-space rune ([unicode.IsSpace]) encoded
    at the head of [s], or [0] when [s] does not start with one.  Besides
    the ASCII ones these are U+0085, U+00A0, U+1680, U+2000..U+200A,
    U+2028, U+2029, U+202F, U+205F and U+3000 in UTF-8. *)
Definition spaceWidth (s : string) : nat :=
  match s with
  | EmptyString => 0
  | String c0 r0 =>
    if asciiSpace c0 then 1
    else
      match r0 with
      | String c1 r1 =>
        let b0 := byte c0 in
        let b1 := byte c1 in
        if ((b0 =? 194) && ((b1 =? 133) || (b1 =? 160)))%N then 2
        else
          match r1 with
          | String c2 _ =>
            let b2 := byte c2 in
            if ((b0 =? 225) && (b1 =? 154) && (b2 =? 128)
                || (b0 =? 226) && (b1 =? 128)
                   && ((128 <=? b2) && (b2 <=? 138)
                       || (b2 =? 168) || (b2 =? 169) || (b2 =? 175))
                || (b0 =? 226) && (b1 =? 129) && (b2 =? 159)
                || (b0 =? 227) && (b1 =? 128) && (b2 =? 128))%N
            then 3 else 0
          | EmptyString => 0
          end
      | EmptyString => 0
      end
  end%nat.

Definition consField (w : string) (ws : list string) : list string :=
  match w with
  | EmptyString => ws
  | _ => w :: ws
  end.

(** The field being read at the head of [s] and the fields after it;
    [skip] counts the bytes still to drop of a multi-byte space. *)
Fixpoint splitFields (skip : nat) (s : string) : string * list string :=
  match s with
  | EmptyString => (EmptyString, [])
  | String c r =>
    match skip with
    | S k => splitFields k r
    | O =>
      match spaceWidth s with
      | O => let (w, ws) := splitFields 0 r in (String c w, ws)
      | S k => let (w, ws) := splitFields k r in (EmptyString, consField w ws)
      end
    end
  end.

(** [strings.Fields]: the maximal runs of non-space runes. *)
Definition Fields (s : string) : list string :=
  let (w, ws) := splitFields 0 s in consField w ws.

Fixpoint trimLeftSpace (skip : nat) (s : string) : string :=
  match s with
  | EmptyString => EmptyString
  | String c r =>
    match skip with
    | S k => trimLeftSpace k r
    | O =>
      match spaceWidth s with
      | O => s
      | S k => trimLeftSpace k r
      end
    end
  end.

(** [s] is white space only. *)
Definition allSpace (s : string) : bool :=
  match trimLeftSpace 0 s with
  | EmptyString => true
  | _ => false
  end.

Fixpoint trimRightSpace (s : string) : string :=
  match s with
  | EmptyString => EmptyString
  | String c r => if allSpace s then EmptyString else String c (trimRightSpace r)
  end.

(** [strings.TrimSpace]. *)
Definition TrimSpace (s : string) : string :=
  trimRightSpace (trimLeftSpace 0 s).

(** The piece before the first separator and the pieces after it, cutting
    at most [n] times. *)
Fixpoint splitAt (sep : ascii) (n : nat) (s : string) : string * list string :=
  match s with
  | EmptyString => (EmptyString, [])
  | String c r =>
    match n with
    | S k =>
      if Ascii.eqb c sep
      then let (w, ws) := splitAt sep k r in (EmptyString, w :: ws)
      else let (w, ws) := splitAt sep n r in (String c w, ws)
    | O => let (w, ws) := splitAt sep n r in (String c w, ws)
    end
  end.

(** [strings.Split(s, sep)] for a one-byte separator: every piece, empty
    ones included. *)
Definition Split (s : string) (sep : ascii) : list string :=
  let (w, ws) := splitAt sep (String.length s) s in w :: ws.

(** [strings.SplitN(s, sep, n)] for a one-byte separator and [n > 0]: at
    most [n] pieces, the last one the unsplit remainder. *)
Definition SplitN (s : string) (sep : ascii) (n : nat) : list string :=
  let (w, ws) := splitAt sep (Nat.pred n) s in w :: ws.

(** [strings.HasPrefix]. *)
Definition HasPrefix (s pre : string) : bool := String.prefix pre s.

(** [strings.Join(elems, sep)]. *)
Fixpoint Join (elems : list string) (sep : string) : string :=
  match elems with
  | [] => EmptyString
  | [e] => e
  | e :: rest => e ++ sep ++ Join rest sep
  end.

(** [strings.Contains]: [substr] starts at some index of [s]. *)
Fixpoint Contains (s substr : string) : bool :=
  String.prefix substr s
  || match s with
     | EmptyString => false
     | String _ r => Contains r substr
     end.

End strings.


(** ** Package strconv *)

Module strconv.

Definition digit (c : ascii) : option Z :=
  let b := strings.byte c in
  if ((48 <=? b) && (b <=? 57))%N then Some (Z.of_N b - 48) else None.

Inductive numError : Type := Syntax | Range.

(** The loop of [ParseUint(s, 10, 64)]: a byte that is no decimal digit is
    a syntax error, a running value above [2^64 - 1] a range error,
    whichever comes first. *)
Fixpoint parseDigits (acc : Z) (s : string) : Z + numError :=
  match s with
  | EmptyString => inl acc
  | String c r =>
    match digit c with
    | None => inr Syntax
    | Some d =>
      let n := acc * 10 + d in
      if GoInt.maxUint64 <? n then inr Range else parseDigits n r
    end
  end.

Definition ParseUint (s : string) : Z + numError :=
  match s with
  | EmptyString => inr Syntax
  | _ => parseDigits 0 s
  end.

(** [ParseInt(s, 10, 64)], with the name [fn] it reports in its errors. *)
Definition parseInt (fn : string) (s0 : string) : Z + error :=
  match s0 with
  | EmptyString => inr (ErrSyntax fn s0)
  | String c r =>
    let neg := Ascii.eqb c "-" in
    let s := if Ascii.eqb c "+" || neg then r else s0 in
    match ParseUint s with
    | inr Syntax => inr (ErrSyntax fn s0)
    | inr Range => inr (ErrRange fn s0)
    | inl un =>
      if negb neg && (2 ^ 63 <=? un) then inr (ErrRange fn s0)
      else if neg && (2 ^ 63 <? un) then inr (ErrRange fn s0)
      else inl (if neg then - un else un)
    end
  end.

Definition ParseInt (s : string) : Z + error := parseInt "ParseInt" s.

(** [Atoi]: its fast path and [ParseInt(s, 10, 0)] accept the same strings
    with the same values on a 64-bit [int]. *)
Definition Atoi (s : string) : Z + error := parseInt "Atoi" s.

(** [Itoa]: the decimal digits, with [-] in front of a negative number. *)
Definition Itoa (i : Z) : string := NilZero.string_of_int (Z.to_int i).

End strconv.

(** ** Package path/filepath (Unix) *)

Module filepath.

Definition isRooted (path : string) : bool := String.prefix "/" path.

(** One element of a path against the elements kept so far, the last kept
    one first: empty and [.] elements vanish, [..] removes the element
    before it, stays at the front of a relative path and vanishes at the
    root. *)
Definition cleanStep (rooted : bool) (kept : list string) (elem : string) : list string :=
  if String.eqb elem "" || String.eqb elem "." then kept
  else if String.eqb elem ".." then
    match kept with
    | top :: below => if String.eqb top ".." then elem :: kept else below
    | [] => if rooted then [] else [elem]
    end
  else elem :: kept.

(** [filepath.Clean]. *)
Definition Clean (path : string) : string :=
  let rooted := isRooted path in
  let kept := fold_left (cleanStep rooted) (strings.Split path "/") [] in
  let out := strings.Join (rev kept) "/" in
  if rooted then "/" ++ out
  else if String.eqb out "" then "." else out.

(** [filepath.Join]: the elements from the first non-empty one on, joined
    by slashes and cleaned; the empty string when all are empty. *)
Fixpoint Join (elem : list string) : string :=
  match elem with
  | [] => ""
  | e :: rest => if String.eqb e "" then Join rest else Clean (strings.Join elem "/")
  end.

End filepath.

(** ** Values carried by a [context.Context] *)

(** A Go interface value as the code meets it: [nil], a string or an int. *)
Inductive any : Type :=
| nilValue
| stringValue (s : string)
| intValue (n : Z).

(** The three keys the code reads with [ctx.Value]: the target process
    ([channel.NSTargetFlagName]), ["cgroup-root"] and ["cpuCount"].  A key
    that was never set reads as [nilValue]. *)
Record Context : Type := {
  ctx_ns_target : any;
  ctx_cgroup_root : any;
  ctx_cpuCount : any
}.

(** [v == ""] for an interface value [v]. *)
Definition isEmptyString (v : any) : bool :=
  match v with
  | stringValue s => String.eqb s ""
  | _ => false
  end.

(** The type assertions [v.(string)] and [v.(int)]: they panic on a value of
    another dynamic type, [nil] included. *)
Definition assertString (v : any) : outcome string :=
  match v with
  | stringValue s => Returns s
  | _ => Panics
  end.

Definition assertInt (v : any) : outcome Z :=
  match v with
  | intValue n => Returns n
  | _ => Panics
  end.

Definition bindOutcome {A B : Type} (m : outcome A) (k : A -> outcome B) : outcome B :=
  match m with
  | Returns a => k a
  | Panics => Panics
  | Exits => Exits
  end.

Notation "x <- m ;; k" := (bindOutcome m (fun x => k))
  (at level 61, m at next level, right associativity).

(** ** The environment *)

Inductive GOOS : Type := linux | darwin.

(** [mem.VirtualMemory()] of gopsutil: four [uint64] figures. *)
Record VirtualMemoryStat : Type := {
  Total : Z;
  Free : Z;
  Buffers : Z;
  Cached : Z
}.

(** What the code reads of a cgroup v1 [Metrics]: [stats.CPU.Usage.Total],
    and under [stats.Memory] (a pointer, possibly nil) [Usage.Limit],
    [Usage.Usage] and [Cache]; all [uint64]. *)
Record MemoryStat : Type := {
  Usage_Limit : Z;
  Usage_Usage : Z;
  Cache : Z
}.

Record Metrics : Type := {
  CPU_Usage_Total : Z;
  Memory : option MemoryStat
}.

(** Modelled from the spec: the type [CPUQuotaStatus] of package runtime,
    declared in a file that is not at hand.  Its values are the three the
    code names, the spec's Undefined, Used and MinUsed. *)
Inductive CPUQuotaStatus : Type :=
| CPUQuotaUndefined
| CPUQuotaUsed
| CPUQuotaMinUsed.

(** Everything outside the code that a call observes.  The functions of
    other modules and of the part of this repository that is not at hand are
    fields too: they are consulted, never looked into. *)
Record Env : Type := {
  goos : GOOS;
  (* os.ReadFile(path): [None] when it returns an error *)
  readFile : string -> option string;
  (* os.Stat(path) returns a nil error *)
  statOk : string -> bool;
  (* runtime.NumCPU() *)
  NumCPU : Z;
  (* mem.VirtualMemory() *)
  VirtualMemory : VirtualMemoryStat + error;
  (* cgroups.Load(exec.Hierarchy(root), exec.PidPath(pid)): its error *)
  cgroupsLoad : string -> Z -> option error;
  (* cgroup.Stat(cgroups.IgnoreNotExist) of the loaded cgroup *)
  cgroupStat : string -> Z -> option Metrics * option error;
  (* cpu.Percent(time.Second, percpu) *)
  cpuPercent : bool -> list float * option error;
  (* iruntime.GetCPUQuotaToCPUCntByPidFroCgroups1(ctx, root, pid, min, DefaultRoundFunc)
     of the linux build *)
  GetCPUQuotaToCPUCntByPidFroCgroups1 : string -> string -> Z -> Z * CPUQuotaStatus * option error
}.

(** The environment second by second: [w t] is what a read finds [t]
    seconds after the call started; [time.Sleep(time.Second)] moves one on. *)
Definition World : Type := nat -> Env.

(** ** Package bufio *)

Module bufio.

Definition MaxScanTokenSize : Z := 64 * 1024.

(** A carriage return at the end of a line is dropped. *)
Fixpoint dropCR (line : string) : string :=
  match line with
  | EmptyString => EmptyString
  | String c r =>
    match r with
    | EmptyString => if Ascii.eqb c "013" then EmptyString else line
    | _ => String c (dropCR r)
    end
  end.

Fixpoint dropLastEmpty (pieces : list string) : list string :=
  match pieces with
  | [] => []
  | [last] => if String.eqb last "" then [] else [last]
  | piece :: rest => piece :: dropLastEmpty rest
  end.

Fixpoint fitting (pieces : list string) : list string :=
  match pieces with
  | [] => []
  | piece :: rest =>
    if Z.of_nat (String.length piece) <? MaxScanTokenSize then piece :: fitting rest else []
  end.

(** The texts a [Scanner] with the default line splitting yields over a
    file: the lines without their end-of-line marker, no empty line after
    the last line feed, and nothing from the first line on that does not
    fit the scanner's buffer, where [Scan] gives up. *)
Definition ScanLines (content : string) : list string :=
  map dropCR (fitting (dropLastEmpty (strings.Split content "010"))).

End bufio.

(** ** Package cgroups (pkg/automaxprocs/cgroups) *)

Module cgroups.

Definition CGroupV2CPUQuotaFile : string := "cpu.max".
Definition CGroupV2MemoryLimitFile : string := "memory.max".
Definition CGroupV1FS : string := "cgroup".
Definition CGroupV2FS : string := "cgroup2".

Inductive CGroupVersion : Type :=
| CGroupV1
| CGroupV2
| CGroupUnknown.

Definition mountInfoPath : string := "/proc/self/mountinfo".

Definition defaultRoot (cgroupRoot : string) : string :=
  if String.eqb cgroupRoot "" then "/sys/fs/cgroup" else cgroupRoot.

(** The body of the first loop over the mount table: a line of at least
    seven fields whose seventh is the cgroup v2 type and whose fifth
    starts with the root. *)
Definition isCGroupV2Mount (cgroupRoot line : string) : bool :=
  let fields := strings.Fields line in
  if (7 <=? List.length fields)%nat then
    let mountPoint := nth 4 fields "" in
    let fstype := nth 6 fields "" in
    String.eqb fstype CGroupV2FS && strings.HasPrefix mountPoint cgroupRoot
  else false.

(** The body of the second loop. *)
Definition isCGroupV1Mount (line : string) : bool :=
  let fields := strings.Fields line in
  if (7 <=? List.length fields)%nat then
    let fstype := nth 6 fields "" in
    String.eqb fstype CGroupV1FS
  else false.

(** A scanning loop that returns at the first line its body accepts. *)
Fixpoint scanFor (accepts : string -> bool) (lines : list string) : bool :=
  match lines with
  | [] => false
  | line :: rest => if accepts line then true else scanFor accepts rest
  end.

(** [DetectCGroupVersion] of the linux build. *)
Definition DetectCGroupVersion_linux (env : Env) (cgroupRoot : string) : CGroupVersion :=
  let cgroupRoot := defaultRoot cgroupRoot in
  let unifiedMount := filepath.Join [cgroupRoot; "cgroup.controllers"] in
  if statOk env unifiedMount then CGroupV2
  else
    let foundV2 :=
      match readFile env mountInfoPath with
      | Some content => scanFor (isCGroupV2Mount cgroupRoot) (bufio.ScanLines content)
      | None => false
      end in
    if foundV2 then CGroupV2
    else
      let foundV1 :=
        match readFile env mountInfoPath with
        | Some content => scanFor isCGroupV1Mount (bufio.ScanLines content)
        | None => false
        end in
      if foundV1 then CGroupV1
      else CGroupV1.

(** [DetectCGroupVersion] of the darwin build. *)
Definition DetectCGroupVersion_darwin (env : Env) (cgroupRoot : string) : CGroupVersion :=
  CGroupUnknown.

(** The build picks one of the two. *)
Definition DetectCGroupVersion (env : Env) (cgroupRoot : string) : CGroupVersion :=
  match goos env with
  | linux => DetectCGroupVersion_linux env cgroupRoot
  | darwin => DetectCGroupVersion_darwin env cgroupRoot
  end.

Definition IsCGroupV2 (env : Env) (cgroupRoot : string) : bool :=
  match DetectCGroupVersion env cgroupRoot with
  | CGroupV2 => true
  | _ => false
  end.

(** The method [CPUQuota] of [CGroupV2Impl] (linux), for the control group
    at [path]. *)
Definition CPUQuota (env : Env) (path : string) : float * bool * option error :=
  let quotaFile := filepath.Join [path; CGroupV2CPUQuotaFile] in
  match readFile env quotaFile with
  | None => (0%float, false, Some (ErrReadFile quotaFile))
  | Some content =>
    let quotaStr := strings.TrimSpace content in
    match strings.Fields quotaStr with
    | [part0; part1] =>
      if String.eqb part0 "max" then (0%float, false, None)
      else
        match strconv.ParseInt part0 with
        | inr err => (0%float, false, Some err)
        | inl quota =>
          match strconv.ParseInt part1 with
          | inr err => (0%float, false, Some err)
          | inl period =>
            if period <=? 0 then (0%float, false, None)
            else
              let cpuQuota :=
                PrimFloat.div (GoInt.float64_of_int quota) (GoInt.float64_of_int period) in
              (cpuQuota, true, None)
          end
        end
    | _ => (0%float, false, None)
    end
  end.

(** The method [MemoryLimit] of [CGroupV2Impl] (linux). *)
Definition MemoryLimit (env : Env) (path : string) : Z * bool * option error :=
  let limitFile := filepath.Join [path; CGroupV2MemoryLimitFile] in
  match readFile env limitFile with
  | None => (0, false, Some (ErrReadFile limitFile))
  | Some content =>
    let limitStr := strings.TrimSpace content in
    if String.eqb limitStr "max" then (0, false, None)
    else
      match strconv.ParseInt limitStr with
      | inr err => (0, false, Some err)
      | inl limit => (limit, true, None)
      end
  end.

(** The loop of [FindCGroupV2Path] over the lines of [/proc/<pid>/cgroup]:
    the first line [0::<path>] gives the directory. *)
Fixpoint findUnifiedLine (cgroupRoot : string) (lines : list string) : option string :=
  match lines with
  | [] => None
  | line :: rest =>
    if String.eqb line "" then findUnifiedLine cgroupRoot rest
    else
      match strings.SplitN line ":" 3 with
      | [part0; part1; part2] =>
        if String.eqb part0 "0" && String.eqb part1 ""
        then Some (filepath.Join [cgroupRoot; part2])
        else findUnifiedLine cgroupRoot rest
      | _ => findUnifiedLine cgroupRoot rest
      end
  end.

(** [FindCGroupV2Path] (linux). *)
Definition FindCGroupV2Path (env : Env) (pid cgroupRoot : string) : string * option error :=
  let cgroupRoot := defaultRoot cgroupRoot in
  let cgroupFile := filepath.Join ["/proc"; pid; "cgroup"] in
  match readFile env cgroupFile with
  | None => ("", Some (ErrReadFile cgroupFile))
  | Some content =>
    match findUnifiedLine cgroupRoot (strings.Split content "010") with
    | Some fullPath => (fullPath, None)
    | None => ("", None)
    end
  end.

End cgroups.

(** ** Package runtime (pkg/automaxprocs/runtime) *)

Module runtime.

(** [GetCPUQuotaToCPUCntByPidForCgroups2] (linux).  [DefaultRoundFunc] is
    declared in a file of the package that is not at hand and is taken as
    given; [round] is [None] for a nil function. *)
Definition GetCPUQuotaToCPUCntByPidForCgroups2
    (DefaultRoundFunc : float -> Z) (env : Env)
    (actualCGRoot pid : string) (minValue : Z) (round : option (float -> Z))
  : Z * CPUQuotaStatus * option error :=
  let round := match round with
               | None => DefaultRoundFunc
               | Some f => f
               end in
  match cgroups.FindCGroupV2Path env pid actualCGRoot with
  | (_, Some err) => (-1, CPUQuotaUndefined, Some err)
  | (cgroupPath, None) =>
    if String.eqb cgroupPath "" then (-1, CPUQuotaUndefined, None)
    else
      match cgroups.CPUQuota env cgroupPath with
      | (_, _, Some err) => (-1, CPUQuotaUndefined, Some err)
      | (quota, defined, None) =>
        if negb defined then (-1, CPUQuotaUndefined, None)
        else
          let maxProcs := round quota in
          if (0 <? minValue) && (maxProcs <? minValue)
          then (minValue, CPUQuotaMinUsed, None)
          else (maxProcs, CPUQuotaUsed, None)
      end
  end.

(** [GetCPUQuotaToCPUCntByPidForCgroups2] of the darwin build
    (cpu_quota_darwin.go): no quota, no error. *)
Definition GetCPUQuotaToCPUCntByPidForCgroups2_darwin
    (actualCGRoot pid : string) (minValue : Z) (round : option (float -> Z))
  : Z * CPUQuotaStatus * option error :=
  (-1, CPUQuotaUndefined, None).

(** Modelled from the spec: [GetCPUQuotaToCPUCntByPidFroCgroups1] of the
    darwin build, declared in a file that is not at hand.  The spec has a
    host without cgroups report "undefined" and no error, which is what the
    darwin build of the cgroup v2 lookup above and the darwin stubs of
    package cgroups do. *)
Definition GetCPUQuotaToCPUCntByPidFroCgroups1_darwin
    (actualCGRoot pid : string) (minValue : Z)
  : Z * CPUQuotaStatus * option error :=
  (-1, CPUQuotaUndefined, None).

(** The cgroup v1 lookup a build has: on linux the function that is not at
    hand, a field of the environment. *)
Definition GetCPUQuotaToCPUCntByPidFroCgroups1 (env : Env)
    (actualCGRoot pid : string) (minValue : Z)
  : Z * CPUQuotaStatus * option error :=
  match goos env with
  | linux => GetCPUQuotaToCPUCntByPidFroCgroups1 env actualCGRoot pid minValue
  | darwin => GetCPUQuotaToCPUCntByPidFroCgroups1_darwin actualCGRoot pid minValue
  end.

End runtime.

(** ** Package automaxprocs (pkg/automaxprocs/maxprocs.go) *)

Module automaxprocs.

Definition countOrNumCPU (env : Env) (r : Z * CPUQuotaStatus * option error)
  : Z * option error :=
  match r with
  | (_, _, Some err) => (NumCPU env, Some err)
  | (cnt, status, None) =>
    match status with
    | CPUQuotaUndefined => (NumCPU env, None)
    | CPUQuotaMinUsed => (cnt, None)
    | CPUQuotaUsed => (cnt, None)
    end
  end.


Definition GetCPUCntByPidForCgroups2 (DefaultRoundFunc : float -> Z) (env : Env)
    (actualCGRoot pid : string) : Z * option error :=
  countOrNumCPU env
    (runtime.GetCPUQuotaToCPUCntByPidForCgroups2 DefaultRoundFunc env
       actualCGRoot pid 1 (Some DefaultRoundFunc)).


End automaxprocs.

(** ** Package mem (exec/mem) *)

Module mem.

(** [getSystemMemory]: the figures of the whole machine. *)
Definition getSystemMemory (env : Env) (burnMemMode : string) (includeBufferCache : bool)
  : Z * Z * option error :=
  match VirtualMemory env with
  | inr err => (0, 0, Some err)
  | inl virtualMemory =>
    let total := GoInt.int64_of_uint64 (Total virtualMemory) in
    let available := GoInt.int64_of_uint64 (Free virtualMemory) in
    let available :=
      if String.eqb burnMemMode "ram" && negb includeBufferCache
      then GoInt.add64 available
             (GoInt.int64_of_uint64
                (GoInt.addU64 (Buffers virtualMemory) (Cached virtualMemory)))
      else available in
    (total, available, None)
  end.

(** [getCGroupV2MemoryUsage]: the number in [memory.current]. *)
Definition getCGroupV2MemoryUsage (env : Env) (cgroupPath : string) : Z * option error :=
  let currentFile := cgroupPath ++ "/memory.current" in
  match readFile env currentFile with
  | None => (0, Some (ErrReadFile currentFile))
  | Some content =>
    match strconv.ParseInt (strings.TrimSpace content) with
    | inr err => (0, Some err)
    | inl usage => (usage, None)
    end
  end.

(** The body of the loop of [getCGroupV2MemoryCache]. *)
Definition addFileLine (cache : Z) (line : string) : Z :=
  if strings.HasPrefix line "file " then
    match strings.Fields line with
    | [_; part1] =>
      match strconv.ParseInt part1 with
      | inl val => GoInt.add64 cache val
      | inr _ => cache
      end
    | _ => cache
    end
  else cache.

(** [getCGroupV2MemoryCache]: the [file] lines of [memory.stat] added up. *)
Definition getCGroupV2MemoryCache (env : Env) (cgroupPath : string) : Z * option error :=
  let statFile := cgroupPath ++ "/memory.stat" in
  match readFile env statFile with
  | None => (0, Some (ErrReadFile statFile))
  | Some content =>
    (fold_left addFileLine (strings.Split content "010") 0, None)
  end.

(** [getAvailableAndTotalV2]. *)
Definition getAvailableAndTotalV2 (env : Env) (ctx : Context)
    (burnMemMode : string) (includeBufferCache : bool)
  : outcome (Z * Z * option error) :=
  let pid := ctx_ns_target ctx in
  match pid with
  | nilValue => Returns (getSystemMemory env burnMemMode includeBufferCache)
  | _ =>
    pidStr <- assertString pid ;;
    match strconv.Atoi pidStr with
    | inr err => Returns (0, 0, Some (Errorf "load cgroup error, %v" err))
    | inl p =>
      let cgroupRoot := ctx_cgroup_root ctx in
      let cgroupRoot :=
        if isEmptyString cgroupRoot then stringValue "/sys/fs/cgroup" else cgroupRoot in
      root <- assertString cgroupRoot ;;
      match cgroups.FindCGroupV2Path env (strconv.Itoa p) root with
      | (_, Some _) => Returns (getSystemMemory env burnMemMode includeBufferCache)
      | (cgroupPath, None) =>
        if String.eqb cgroupPath ""
        then Returns (getSystemMemory env burnMemMode includeBufferCache)
        else
          match cgroups.MemoryLimit env cgroupPath with
          | (_, _, Some _) => Returns (getSystemMemory env burnMemMode includeBufferCache)
          | (limit, defined, None) =>
            if negb defined || (limit =? 0)
            then Returns (getSystemMemory env burnMemMode includeBufferCache)
            else
              match getCGroupV2MemoryUsage env cgroupPath with
              | (_, Some _) => Returns (getSystemMemory env burnMemMode includeBufferCache)
              | (usage, None) =>
                let total := limit in
                let available := GoInt.sub64 total usage in
                let available :=
                  if String.eqb burnMemMode "ram" && negb includeBufferCache then
                    match getCGroupV2MemoryCache env cgroupPath with
                    | (cache, None) => GoInt.add64 available cache
                    | (_, Some _) => available
                    end
                  else available in
                Returns (total, available, None)
              end
          end
      end
    end
  end.

(** [getAvailableAndTotalV1].  The constant [PageCounterMax] is declared in
    a file of the package that is not at hand and is taken as given. *)
Definition getAvailableAndTotalV1 (PageCounterMax : Z) (env : Env)
    (burnMemMode : string) (includeBufferCache : bool) (p : Z) (cgroupRoot : string)
  : outcome (Z * Z * option error) :=
  match cgroupsLoad env cgroupRoot p with
  | Some err => Returns (0, 0, Some (Errorf "load cgroup error, %v" err))
  | None =>
    match cgroupStat env cgroupRoot p with
    | (_, Some err) => Returns (0, 0, Some (Errorf "load cgroup stat error, %v" err))
    | (Some stats, None) =>
      match Memory stats with
      | None => Panics                       (* stats.Memory is a nil pointer *)
      | Some memory =>
        if Usage_Limit memory <? PageCounterMax then
          let total := GoInt.int64_of_uint64 (Usage_Limit memory) in
          let available := GoInt.sub64 total (GoInt.int64_of_uint64 (Usage_Usage memory)) in
          let available :=
            if String.eqb burnMemMode "ram" && negb includeBufferCache
            then GoInt.add64 available (GoInt.int64_of_uint64 (Cache memory))
            else available in
          Returns (total, available, None)
        else Returns (getSystemMemory env burnMemMode includeBufferCache)
      end
    | (None, None) => Returns (getSystemMemory env burnMemMode includeBufferCache)
    end
  end.

(** [getAvailableAndTotal]: the resolver the memory experiment calls.  Its
    reading of the host's figures is the text of [getSystemMemory] again. *)
Definition getAvailableAndTotal (PageCounterMax : Z) (env : Env) (ctx : Context)
    (burnMemMode : string) (includeBufferCache : bool)
  : outcome (Z * Z * option error) :=
  let pid := ctx_ns_target ctx in
  match pid with
  | nilValue => Returns (getSystemMemory env burnMemMode includeBufferCache)
  | _ =>
    pidStr <- assertString pid ;;
    match strconv.Atoi pidStr with
    | inr err => Returns (0, 0, Some (Errorf "load cgroup error, %v" err))
    | inl p =>
      let cgroupRoot := ctx_cgroup_root ctx in
      let cgroupRoot :=
        if isEmptyString cgroupRoot then stringValue "/sys/fs/cgroup/" else cgroupRoot in
      root <- assertString cgroupRoot ;;
      match cgroups.DetectCGroupVersion env root with
      | cgroups.CGroupV2 =>
        getAvailableAndTotalV2 env ctx burnMemMode includeBufferCache
      | cgroups.CGroupV1 =>
        getAvailableAndTotalV1 PageCounterMax env burnMemMode includeBufferCache p root
      | cgroups.CGroupUnknown =>
        getAvailableAndTotalV1 PageCounterMax env burnMemMode includeBufferCache p root
      end
    end
  end.

End mem.

(** ** Package cpu (exec/cpu) *)

Module cpu.

Record cpuStat : Type := {
  usageUsec : Z;
  userUsec : Z;
  systemUsec : Z
}.

(** The body of the loop over the lines of [cpu.stat]. *)
Definition readStatLine (st : cpuStat) (line : string) : cpuStat :=
  let line := strings.TrimSpace line in
  if String.eqb line "" then st
  else
    match strings.Fields line with
    | [part0; part1] =>
      match strconv.ParseInt part1 with
      | inr _ => st
      | inl value =>
        if String.eqb part0 "usage_usec"
        then {| usageUsec := value; userUsec := userUsec st; systemUsec := systemUsec st |}
        else if String.eqb part0 "user_usec"
        then {| usageUsec := usageUsec st; userUsec := value; systemUsec := systemUsec st |}
        else if String.eqb part0 "system_usec"
        then {| usageUsec := usageUsec st; userUsec := userUsec st; systemUsec := value |}
        else st
      end
    | _ => st
    end.

Definition parseCPUStat (content : string) : cpuStat :=
  fold_left readStatLine (strings.Split content "010")
    {| usageUsec := 0; userUsec := 0; systemUsec := 0 |}.

(** The CPU time of a reading in microseconds: [usage_usec], or the sum of
    the other two when that is zero. *)
Definition totalUsec (st : cpuStat) : Z :=
  if usageUsec st =? 0 then GoInt.add64 (userUsec st) (systemUsec st) else usageUsec st.

(** [getCGroupV2CPUUsage], entered at second [t]: the result and the
    second at which it returns. *)
Definition getCGroupV2CPUUsage (w : World) (t : nat) (cgroupPath : string) (cpuCount : Z)
  : (float * option error) * nat :=
  let cpuStatFile := filepath.Join [cgroupPath; "cpu.stat"] in
  match readFile (w t) cpuStatFile with
  | None => ((0%float, Some (Errorf "failed to read cpu.stat file: %v" (ErrReadFile cpuStatFile))), t)
  | Some content =>
    let firstTotal := totalUsec (parseCPUStat content) in
    let t := S t in                                  (* time.Sleep(time.Second) *)
    match readFile (w t) cpuStatFile with
    | None =>
      ((0%float, Some (Errorf "failed to read cpu.stat file again: %v" (ErrReadFile cpuStatFile))), t)
    | Some content =>
      let secondTotal := totalUsec (parseCPUStat content) in
      let timeDiff :=
        PrimFloat.div (GoInt.float64_of_int (GoInt.sub64 secondTotal firstTotal))
                      1000000%float in
      let cpuUsage :=
        PrimFloat.div (PrimFloat.mul timeDiff 100%float) (GoInt.float64_of_int cpuCount) in
      ((cpuUsage, None), t)
    end
  end.

(** [s[i]] on a slice: a panic outside [0 <= i < len(s)]. *)
Definition index (s : list float) (i : Z) : outcome float :=
  if (0 <=? i) && (i <? Z.of_nat (List.length s))
  then Returns (nth (Z.to_nat i) s 0%float)
  else Panics.

(** The cgroup v1 tier of [getUsed], entered at second [t]. *)
Definition getUsedV1 (w : World) (t : nat) (root : string) (p cpuCount : Z) : outcome float :=
  match cgroupsLoad (w t) root p with
  | Some _ => Exits
  | None =>
    match cgroupStat (w t) root p with
    | (_, Some _) => Exits
    | (None, None) => Panics
    | (Some stats, None) =>
      let second := GoInt.float64_of_int 1000000000 in
      let pre := PrimFloat.div (GoInt.float64_of_uint64 (CPU_Usage_Total stats)) second in
      match cgroupStat (w (S t)) root p with
      | (_, Some _) => Exits
      | (None, None) => Panics
      | (Some nextStats, None) =>
        let next :=
          PrimFloat.div (GoInt.float64_of_uint64 (CPU_Usage_Total nextStats)) second in
        Returns (PrimFloat.div (PrimFloat.mul (PrimFloat.sub next pre) 100%float)
                               (GoInt.float64_of_int cpuCount))
      end
    end
  end.

(** The host tier of [getUsed]. *)
Definition getUsedHost (env : Env) (percpu : bool) (cpuIndex : Z) : outcome float :=
  match cpuPercent env percpu with
  | (_, Some _) => Exits
  | (totalCpuPercent, None) =>
    if percpu then
      if Z.of_nat (List.length totalCpuPercent) <? cpuIndex then Exits
      else index totalCpuPercent cpuIndex
    else index totalCpuPercent 0
  end.

(** [getUsed]. *)
Definition getUsed (w : World) (ctx : Context) (percpu : bool) (cpuIndex : Z)
  : outcome float :=
  let pid := ctx_ns_target ctx in
  cpuCount <- assertInt (ctx_cpuCount ctx) ;;
  match pid with
  | nilValue => getUsedHost (w O) percpu cpuIndex
  | _ =>
    pidStr <- assertString pid ;;
    match strconv.Atoi pidStr with
    | inr _ => Exits
    | inl p =>
      let cgroupRoot := ctx_cgroup_root ctx in
      let cgroupRoot :=
        if isEmptyString cgroupRoot then stringValue "/sys/fs/cgroup" else cgroupRoot in
      root <- assertString cgroupRoot ;;
      match cgroups.FindCGroupV2Path (w O) (strconv.Itoa p) root with
      | (cgroupPath, None) =>
        if negb (String.eqb cgroupPath "") then
          match getCGroupV2CPUUsage w O cgroupPath cpuCount with
          | ((cpuUsage, None), _) => Returns cpuUsage
          | ((_, Some _), t) => getUsedV1 w t root p cpuCount
          end
        else getUsedV1 w O root p cpuCount
      | (_, Some _) => getUsedV1 w O root p cpuCount
      end
    end
  end.

End cpu.

(** ** Package network (exec/network): the drop experiment *)

Module network.

(** A command handed to a channel: the script and its arguments. *)
Definition Command : Type := (string * string)%type.

(** The response code the drop executor names. *)
Inductive CodeType : Type := OsCmdExecFailed.

Section Drop.

(** [*spec.Response], [spec.ReturnFail] and the executor's [spec.Channel]
    belong to the library chaosblade-spec-go and are taken as given.  Of a
    response the code reads [Success].  What [Run] answers may depend on
    everything run through the channel before, so [Run] is given the
    commands run so far, the latest last. *)
Variable Response : Type.
Variable Success : Response -> bool.
Variable ReturnFail : CodeType -> string -> Response.
Variable Run : list Command -> string -> string -> Response.

(** The flags of the experiment. *)
Variables sourceIp destinationIp sourcePort destinationPort : string.
Variables stringPattern networkTraffic : string.

(** The chains in the order the loops visit them; the same text opens
    [start] and [stop]. *)
Definition netFlowsOf : list string :=
  let netFlows := ["INPUT"; "OUTPUT"] in
  let netFlows := if String.eqb networkTraffic "in" then ["INPUT"] else netFlows in
  let netFlows := if String.eqb networkTraffic "out" then ["OUTPUT"] else netFlows in
  netFlows.

(** The arguments of the two [iptables] calls of one round of the loop of
    [start]: [tcpArgs] and [udpArgs]. *)
Definition startArgs (netFlow : string) : string * string :=
  let tcpArgs := "-A " ++ netFlow ++ " -p tcp" in
  let udpArgs := "-A " ++ netFlow ++ " -p udp" in
  let '(tcpArgs, udpArgs) :=
    if negb (String.eqb sourceIp "")
    then (tcpArgs ++ " -s " ++ sourceIp, udpArgs ++ " -s " ++ sourceIp)
    else (tcpArgs, udpArgs) in
  let '(tcpArgs, udpArgs) :=
    if negb (String.eqb destinationIp "")
    then (tcpArgs ++ " -d " ++ destinationIp, udpArgs ++ " -d " ++ destinationIp)
    else (tcpArgs, udpArgs) in
  let '(tcpArgs, udpArgs) :=
    if negb (String.eqb sourcePort "") then
      if strings.Contains sourcePort ","
      then (tcpArgs ++ " -m multiport --sports " ++ sourcePort,
            udpArgs ++ " -m multiport --sports " ++ sourcePort)
      else (tcpArgs ++ " --sport " ++ sourcePort, udpArgs ++ " --sport " ++ sourcePort)
    else (tcpArgs, udpArgs) in
  let '(tcpArgs, udpArgs) :=
    if negb (String.eqb destinationPort "") then
      if strings.Contains destinationPort ","
      then (tcpArgs ++ " -m multiport --dports " ++ destinationPort,
            udpArgs ++ " -m multiport --dports " ++ destinationPort)
      else (tcpArgs ++ " --dport " ++ destinationPort,
            udpArgs ++ " --dport " ++ destinationPort)
    else (tcpArgs, udpArgs) in
  let '(tcpArgs, udpArgs) :=
    if negb (String.eqb stringPattern "")
    then (tcpArgs ++ " -m string --string " ++ stringPattern ++ " --algo bm",
          udpArgs ++ " -m string --string " ++ stringPattern ++ " --algo bm")
    else (tcpArgs, udpArgs) in
  (tcpArgs ++ " -j DROP", udpArgs ++ " -j DROP").

(** The same for one round of the loop of [stop]. *)
Definition stopArgs (netFlow : string) : string * string :=
  let tcpArgs := "-D " ++ netFlow ++ " -p tcp" in
  let udpArgs := "-D " ++ netFlow ++ " -p udp" in
  let '(tcpArgs, udpArgs) :=
    if negb (String.eqb sourceIp "")
    then (tcpArgs ++ " -s " ++ sourceIp, udpArgs ++ " -s " ++ sourceIp)
    else (tcpArgs, udpArgs) in
  let '(tcpArgs, udpArgs) :=
    if negb (String.eqb destinationIp "")
    then (tcpArgs ++ " -d " ++ destinationIp, udpArgs ++ " -d " ++ destinationIp)
    else (tcpArgs, udpArgs) in
  let '(tcpArgs, udpArgs) :=
    if negb (String.eqb sourcePort "") then
      if strings.Contains sourcePort ","
      then (tcpArgs ++ " -m multiport --sports " ++ sourcePort,
            udpArgs ++ " -m multiport --sports " ++ sourcePort)
      else (tcpArgs ++ " --sport " ++ sourcePort, udpArgs ++ " --sport " ++ sourcePort)
    else (tcpArgs, udpArgs) in
  let '(tcpArgs, udpArgs) :=
    if negb (String.eqb destinationPort "") then
      if strings.Contains destinationPort ","
      then (tcpArgs ++ " -m multiport --dports " ++ destinationPort,
            udpArgs ++ " -m multiport --dports " ++ destinationPort)
      else (tcpArgs ++ " --dport " ++ destinationPort,
            udpArgs ++ " --dport " ++ destinationPort)
    else (tcpArgs, udpArgs) in
  let '(tcpArgs, udpArgs) :=
    if negb (String.eqb stringPattern "")
    then (tcpArgs ++ " -m string --string " ++ stringPattern ++ " --algo bm",
          udpArgs ++ " -m string --string " ++ stringPattern ++ " --algo bm")
    else (tcpArgs, udpArgs) in
  (tcpArgs ++ " -j DROP", udpArgs ++ " -j DROP").

(** The loop of [stop] from the chains still to visit, the commands run so
    far and the response so far ([None] for the nil pointer): it returns at
    the first command that fails. *)
Fixpoint stopFlows (netFlows : list string) (ran : list Command) (response : option Response)
  : option Response * list Command :=
  match netFlows with
  | [] => (response, ran)
  | netFlow :: rest =>
    let '(tcpArgs, udpArgs) := stopArgs netFlow in
    let response := Run ran "iptables" tcpArgs in
    let ran := (ran ++ [("iptables", tcpArgs)])%list in
    if negb (Success response) then (Some response, ran)
    else
      let response := Run ran "iptables" udpArgs in
      let ran := (ran ++ [("iptables", udpArgs)])%list in
      if negb (Success response) then (Some response, ran)
      else stopFlows rest ran (Some response)
  end.

(** The method [stop] of [NetworkDropExecutor]. *)
Definition stop (ran : list Command) : option Response * list Command :=
  stopFlows netFlowsOf ran None.

(** The loop of [start]: a failed tcp command runs [stop] and returns; a
    failed udp command runs [stop] and goes on with the next chain. *)
Fixpoint startFlows (netFlows : list string) (ran : list Command) (response : option Response)
  : option Response * list Command :=
  match netFlows with
  | [] => (response, ran)
  | netFlow :: rest =>
    let '(tcpArgs, udpArgs) := startArgs netFlow in
    let response := Run ran "iptables" tcpArgs in
    let ran := (ran ++ [("iptables", tcpArgs)])%list in
    if negb (Success response) then
      let ran := snd (stop ran) in
      (Some response, ran)
    else
      let response := Run ran "iptables" udpArgs in
      let ran := (ran ++ [("iptables", udpArgs)])%list in
      let ran := if negb (Success response) then snd (stop ran) else ran in
      startFlows rest ran (Some response)
  end.

(** The method [start] of [NetworkDropExecutor]. *)
Definition start (ran : list Command) : option Response * list Command :=
  if String.eqb destinationIp "" && String.eqb sourceIp ""
     && String.eqb destinationPort "" && String.eqb sourcePort ""
     && String.eqb stringPattern ""
  then (Some (ReturnFail OsCmdExecFailed "must specify ip or port or string flag"), ran)
  else startFlows netFlowsOf ran None.

End Drop.

Arguments stopFlows {Response}.
Arguments stop {Response}.
Arguments startFlows {Response}.
Arguments start {Response}.

End network.

(** ** Package version *)

Module version.

(** [s[:n]]: a panic when [n] is beyond the length of [s]. *)
Definition slicePrefix (s : string) (n : nat) : outcome string :=
  if (n <=? String.length s)%nat then Returns (String.substring 0 n s) else Panics.

(** The values of the three variables in a build that sets none of them
    through the linker. *)
Definition unsetBladeVersion : string := "dev".
Definition unsetGitCommit : string := "unknown".
Definition unsetBuildTime : string := "unknown".

Section Build.

(** The variables set at build time. *)
Variables BladeVersion GitCommit : string.

(** What [GetVersionInfo] takes from the Go runtime, and the text of the
    build time, [info.BuildTime.Format("2006-01-02 15:04:05")]. *)
Variables builtAt GoVersion Platform Architecture : string.

Definition GetVersion : string := BladeVersion.

Definition GetFullVersion : outcome string :=
  commit <- slicePrefix GitCommit 8 ;;
  Returns ("chaosblade-exec-os " ++ BladeVersion ++ " (commit: " ++ commit
           ++ ", built: " ++ builtAt ++ ", go: " ++ GoVersion ++ ", "
           ++ Platform ++ "/" ++ Architecture ++ ")").

Definition IsRelease : bool :=
  negb (String.eqb BladeVersion "dev") && negb (String.eqb BladeVersion "latest").

Definition GetShortCommit : string :=
  if (8 <=? String.length GitCommit)%nat then String.substring 0 8 GitCommit else GitCommit.

End Build.

End version.

(** ** Sample environments *)

Module Sample.

(** A file system given by the list of its files. *)
Fixpoint lookupFile (files : list (string * string)) (path : string) : option string :=
  match files with
  | [] => None
  | (name, content) :: rest =>
    if String.eqb name path then Some content else lookupFile rest path
  end.

Definition hostMemory : VirtualMemoryStat :=
  {| Total := 8589934592; Free := 2147483648; Buffers := 268435456; Cached := 1073741824 |}.

(** A Linux host with the given files and the unified hierarchy at
    [/sys/fs/cgroup], on which every cgroup v1 lookup fails. *)
Definition host (files : list (string * string)) : Env :=
  {| goos := linux;
     readFile := lookupFile files;
     statOk := String.eqb "/sys/fs/cgroup/cgroup.controllers";
     NumCPU := 8;
     VirtualMemory := inl hostMemory;
     cgroupsLoad := fun _ _ => Some (ErrExternal "cgroups: cgroup mountpoint does not exist");
     cgroupStat := fun _ _ => (None, Some (ErrExternal "cgroups: cgroup deleted"));
     cpuPercent := fun percpu =>
                     (if percpu then [12.5%float; 50%float] else [31.25%float], None);
     GetCPUQuotaToCPUCntByPidFroCgroups1 :=
       fun _ _ _ => (-1, CPUQuotaUndefined, Some (ErrExternal "no cgroup v1 cpu hierarchy")) |}.

(** A sentinel for "no limit" under cgroup v1, just below [2^63]. *)
Definition PageCounterMax : Z := 9223372036854771712.

Definition podDir : string := "/sys/fs/cgroup/kubepods/pod1".

(** Process 1234 in the unified hierarchy, with the given files in its
    control group. *)
Definition podFiles (files : list (string * string)) : list (string * string) :=
  ("/proc/1234/cgroup", "0::/kubepods/pod1
") :: map (fun f => (podDir ++ "/" ++ fst f, snd f)) files.

Definition memoryFiles (max current stat : string) : list (string * string) :=
  podFiles [("memory.max", max); ("memory.current", current); ("memory.stat", stat)].

Definition scenarioMemory : Env :=
  host (memoryFiles "2147483648
" "1073741824
" "anon 937099264
file 104857600
file_mapped 4096
").

(** More page cache on record than memory in use: [memory.current] read at
    200 MiB, and [memory.stat], read after it, with 300 MiB of page cache;
    the limit is 1 GiB. *)
Definition cacheAboveUsage : Env :=
  host (memoryFiles "1073741824
" "209715200
" "anon 104857600
file 314572800
").

Definition cpuMax (content : string) : Env := host (podFiles [("cpu.max", content)]).

Definition cpuStatAt (usage : string) : Env :=
  host (podFiles [("cpu.stat", "usage_usec " ++ usage ++ "
user_usec 700000
system_usec 300000
")]).

(** [usage_usec] reads 1000000 at first and 1500000 from one second on. *)
Definition scenarioCPU : World :=
  fun t => match t with
           | O => cpuStatAt "1000000"
           | S _ => cpuStatAt "1500000"
           end.

(** A line of [/proc/self/mountinfo] in the kernel's layout: mount id,
    parent id, device, root, mount point, mount options, optional fields, the
    separator [-], filesystem type, source, super options.  This one is the
    cgroup v2 mount of a host in hybrid mode. *)
Definition unifiedMountLine : string :=
  "34 33 0:29 / /sys/fs/cgroup/unified rw,nosuid,nodev,noexec,relatime shared:10 - cgroup2 cgroup2 rw,nsdelegate".

Definition hybridMountInfo : string :=
  "25 30 0:23 / /sys rw,nosuid,nodev,noexec,relatime shared:7 - sysfs sysfs rw
33 25 0:28 / /sys/fs/cgroup ro,nosuid,nodev,noexec shared:9 - tmpfs tmpfs ro,mode=755
" ++ unifiedMountLine ++ "
35 33 0:30 / /sys/fs/cgroup/systemd rw,nosuid,nodev,noexec,relatime shared:11 - cgroup cgroup rw,xattr,name=systemd
36 33 0:33 / /sys/fs/cgroup/cpu,cpuacct rw,nosuid,nodev,noexec,relatime shared:15 - cgroup cgroup rw,cpu,cpuacct
".

(** A Linux host in hybrid mode: cgroup v1 hierarchies and the cgroup v2
    hierarchy side by side under [/sys/fs/cgroup], which is a tmpfs and holds
    no [cgroup.controllers]. *)
Definition hybrid : Env :=
  {| goos := linux;
     readFile := lookupFile [("/proc/self/mountinfo", hybridMountInfo)];
     statOk := String.eqb "/sys/fs/cgroup/unified/cgroup.controllers";
     NumCPU := 8;
     VirtualMemory := inl hostMemory;
     cgroupsLoad := fun _ _ => None;
     cgroupStat :=
       fun _ _ =>
         (Some {| CPU_Usage_Total := 5000000000;
                  Memory := Some {| Usage_Limit := 536870912;
                                    Usage_Usage := 134217728;
                                    Cache := 33554432 |} |},
          None);
     cpuPercent := fun _ => ([31.25%float], None);
     GetCPUQuotaToCPUCntByPidFroCgroups1 := fun _ _ _ => (-1, CPUQuotaUndefined, None) |}.

Definition target (root : any) : Context :=
  {| ctx_ns_target := stringValue "1234"; ctx_cgroup_root := root; ctx_cpuCount := intValue 2 |}.

Definition wholeHost : Context :=
  {| ctx_ns_target := nilValue; ctx_cgroup_root := stringValue ""; ctx_cpuCount := intValue 2 |}.

(** Rounding down to a whole number, as [int(math.Floor(v))] does for a
    finite [v] within the range of [int]. *)
Definition floor (v : float) : Z :=
  match FloatOps.Prim2SF v with
  | SpecFloat.S754_finite s m e =>
    Z.shiftl (if s then Z.neg m else Z.pos m) e
  | _ => 0
  end.

End Sample.

(** ** Further sample hosts and channels *)

Module Cases.

(** [/proc/1234/cgroup] on a host in hybrid mode: cgroup v1 hierarchies,
    then the unified one. *)
Definition hybridProcCgroup : string :=
  "12:cpu,cpuacct:/kubepods/pod1
1:name=systemd:/kubepods/pod1
0::/kubepods/pod1
".

Definition hybridTarget : Env := Sample.host [("/proc/1234/cgroup", hybridProcCgroup)].

(** A control group without a memory limit. *)
Definition unlimitedMemory : Env :=
  Sample.host (Sample.memoryFiles "max
" "1073741824
" "").

(** A control group without a [cpu.max], as the root control group is. *)
Definition noCpuMax : Env := Sample.host (Sample.podFiles []).

(** A [memory.stat] as the kernel writes it, and a control group with it. *)
Definition memoryStat : string :=
  "anon 937099264
file 104857600
kernel 2097152
file_mapped 4096
file_dirty 8192
".

Definition withMemoryStat : Env :=
  Sample.host (Sample.memoryFiles "2147483648
" "1073741824
" memoryStat).

(** A host on which process 1234 is gone: no [/proc/1234/cgroup], and the
    cgroup v1 lookups fail. *)
Definition targetGone : World := fun _ => Sample.host [].


(** A response of a channel: whether the command succeeded, and its error
    text. *)
Definition Response : Type := (bool * string)%type.

Definition ReturnFail (code : network.CodeType) (err : string) : Response := (false, err).

(** A channel on which every command succeeds. *)
Definition obliging (ran : list network.Command) (script args : string) : Response :=
  (true, "").

(** A channel that works until [n] commands have been run, and fails from
    then on. *)
Definition failingAfter (n : nat) (ran : list network.Command) (script args : string)
  : Response :=
  if (List.length ran <? n)%nat then (true, "")
  else (false, "iptables: No chain/target/match by that name.").

End Cases.


(** ** The rules of a drop experiment *)

Section DropRules.

Variables sourceIp destinationIp sourcePort destinationPort stringPattern : string.

(** The two [iptables] commands of a round of a loop, from the arguments
    the round builds. *)
Definition ruleCommands (args : string -> string * string) (netFlow : string)
  : list network.Command :=
  [("iptables", fst (args netFlow)); ("iptables", snd (args netFlow))].

(** A command appends, or deletes, a rule of the experiment with these
    flags on one of the chains INPUT and OUTPUT. *)
Definition addsRule (command : network.Command) : Prop :=
  exists netFlow,
    In netFlow ["INPUT"; "OUTPUT"]
    /\ In command
         (ruleCommands
            (network.startArgs sourceIp destinationIp sourcePort destinationPort stringPattern)
            netFlow).

Definition deletesRule (command : network.Command) : Prop :=
  exists netFlow,
    In netFlow ["INPUT"; "OUTPUT"]
    /\ In command
         (ruleCommands
            (network.stopArgs sourceIp destinationIp sourcePort destinationPort stringPattern)
            netFlow).

End DropRules.

(** ** The mount table as the detector reads it *)

(** The entries of the mount table: the lines of [/proc/self/mountinfo], each
    cut into its white-space separated fields; none when the file cannot be
    opened. *)
Definition mountEntries (env : Env) : list (list string) :=
  match readFile env cgroups.mountInfoPath with
  | Some content => map strings.Fields (bufio.ScanLines content)
  | None => []
  end.

(** The detector takes the seventh field of an entry for its filesystem type
    and the fifth for its mount point; an entry is under a root when its
    mount point starts with it. *)
Definition hasType (fstype : string) (entry : list string) : Prop :=
  nth_error entry 6 = Some fstype.

Definition mountedUnder (root : string) (entry : list string) : Prop :=
  exists mountPoint,
    nth_error entry 4 = Some mountPoint /\ String.prefix root mountPoint = true.

(** The rounding function a call ends up with. *)
Definition roundOf (DefaultRoundFunc : float -> Z) (round : option (float -> Z)) : float -> Z :=
  match round with
  | None => DefaultRoundFunc
  | Some f => f
  end.

(** ** Decimal numbers *)

(** A string of decimal digits. *)
Fixpoint allDigits (s : string) : bool :=
  match s with
  | EmptyString => true
  | String c r =>
    match strconv.digit c with
    | Some _ => allDigits r
    | None => false
    end
  end.

(** The number a string of decimal digits stands for, after the digits
    that gave [acc]. *)
Fixpoint uintValue (acc : Z) (d : Decimal.uint) : Z :=
  match d with
  | Decimal.Nil => acc
  | Decimal.D0 l => uintValue (acc * 10 + 0) l
  | Decimal.D1 l => uintValue (acc * 10 + 1) l
  | Decimal.D2 l => uintValue (acc * 10 + 2) l
  | Decimal.D3 l => uintValue (acc * 10 + 3) l
  | Decimal.D4 l => uintValue (acc * 10 + 4) l
  | Decimal.D5 l => uintValue (acc * 10 + 5) l
  | Decimal.D6 l => uintValue (acc * 10 + 6) l
  | Decimal.D7 l => uintValue (acc * 10 + 7) l
  | Decimal.D8 l => uintValue (acc * 10 + 8) l
  | Decimal.D9 l => uintValue (acc * 10 + 9) l
  end.

(** A string of visible ASCII bytes, [!] to [~]: a word that holds no
    white space. *)
Fixpoint visible (s : string) : bool :=
  match s with
  | EmptyString => true
  | String c r => ((33 <=? strings.byte c) && (strings.byte c <=? 126))%N && visible r
  end.

(** ** The cache policy *)

(** The spec's policy [includeReclaimableCache], the "boolean selecting
    whether reclaimable cache counts as available memory" that "mirrors
    whether the experiment's burn mode targets raw physical pages": in the
    code, the test [burnMemMode == "ram" && !includeBufferCache] that guards
    every addition of cache to an available figure. *)
Definition includeReclaimableCache (burnMemMode : string) (includeBufferCache : bool) : bool :=
  String.eqb burnMemMode "ram" && negb includeBufferCache.

(** The figure a line of [memory.stat] gives for the [file] field: that of
    a line [file <n>], none of any other line. *)
Definition fileFigure (line : string) : list Z :=
  if strings.HasPrefix line "file " then
    match strings.Fields line with
    | [_; part1] =>
      match strconv.ParseInt part1 with
      | inl val => [val]
      | inr _ => []
      end
    | _ => []
    end
  else [].

(** The spec's "sum of the [file] field of [memory.stat]". *)
Definition fileSum (stat : string) : Z :=
  fold_right Z.add 0 (flat_map fileFigure (strings.Split stat "010")).

(** ** Figures that agree with each other *)

(** The code adds and subtracts what it reads and clamps nothing; these are
    the relations between the figures under which its results are sound. *)

(** The host: free memory, buffers and cache fit in the total, which fits an
    [int64]. *)
Definition hostConsistent (env : Env) : Prop :=
  forall vm, VirtualMemory env = inl vm ->
    0 <= Free vm /\ 0 <= Buffers vm /\ 0 <= Cached vm
    /\ Free vm + Buffers vm + Cached vm <= Total vm /\ Total vm < 2 ^ 63.

(** Cgroup v1: the cache is part of the usage, and the usage fits an
    [int64]. *)
Definition v1Consistent (env : Env) : Prop :=
  forall root p stats memory,
    cgroupStat env root p = (Some stats, None) ->
    Memory stats = Some memory ->
    0 <= Usage_Limit memory
    /\ 0 <= Cache memory <= Usage_Usage memory /\ Usage_Usage memory < 2 ^ 63.

(** Cgroup v2: limit and usage are not negative, and the page cache of
    [memory.stat] is part of the usage of [memory.current]. *)
Definition v2Consistent (env : Env) : Prop :=
  forall path limit usage,
    cgroups.MemoryLimit env path = (limit, true, None) ->
    mem.getCGroupV2MemoryUsage env path = (usage, None) ->
    0 <= limit /\ 0 <= usage
    /\ forall cache, mem.getCGroupV2MemoryCache env path = (cache, None) ->
                     0 <= cache <= usage.

(** * Properties *)

(** ** Version detection *)

Lemma scanFor_existsb (accepts : string -> bool) (lines : list string) :
  cgroups.scanFor accepts lines = existsb accepts lines.
Proof.
  induction lines as [|line rest IH]; simpl; [reflexivity|].
  rewrite IH. destruct (accepts line); reflexivity.
Qed.

Lemma nth_error_default (l : list string) (n : nat) (x : string) :
  nth_error l n = Some x <-> (n < List.length l)%nat /\ nth n l "" = x.
Proof.
  split.
  - intros H. split.
    + apply nth_error_Some. rewrite H. discriminate.
    + now apply nth_error_nth.
  - intros [Hlt Hnth]. rewrite (nth_error_nth' l "" Hlt). now rewrite Hnth.
Qed.

Lemma isCGroupV2Mount_spec (root line : string) :
  cgroups.isCGroupV2Mount root line = true <->
  hasType "cgroup2" (strings.Fields line) /\ mountedUnder root (strings.Fields line).
Proof.
  unfold cgroups.isCGroupV2Mount, hasType, mountedUnder, strings.HasPrefix, cgroups.CGroupV2FS.
  set (fields := strings.Fields line).
  destruct (Nat.leb_spec 7 (List.length fields)) as [Hlen|Hlen].
  - rewrite andb_true_iff, String.eqb_eq. split.
    + intros [Hty Hpre]. split.
      * apply nth_error_default. split; [lia|assumption].
      * exists (nth 4 fields ""). split; [|assumption].
        apply nth_error_default. split; [lia|reflexivity].
    + intros [Hty [mp [Hmp Hpre]]].
      apply nth_error_default in Hty. apply nth_error_default in Hmp.
      destruct Hty as [_ Hty]. destruct Hmp as [_ Hmp]. subst mp. tauto.
  - split; [discriminate|].
    intros [Hty _]. apply nth_error_default in Hty. lia.
Qed.

Lemma isCGroupV1Mount_spec (line : string) :
  cgroups.isCGroupV1Mount line = true <-> hasType "cgroup" (strings.Fields line).
Proof.
  unfold cgroups.isCGroupV1Mount, hasType, cgroups.CGroupV1FS.
  set (fields := strings.Fields line).
  destruct (Nat.leb_spec 7 (List.length fields)) as [Hlen|Hlen].
  - rewrite String.eqb_eq. split.
    + intros Hty. apply nth_error_default. split; [lia|assumption].
    + intros Hty. now apply nth_error_default in Hty.
  - split; [discriminate|].
    intros Hty. apply nth_error_default in Hty. lia.
Qed.

Lemma scan_finds_entry (env : Env) (accepts : string -> bool) (P : list string -> Prop) :
  (forall line, accepts line = true <-> P (strings.Fields line)) ->
  match readFile env cgroups.mountInfoPath with
  | Some content => cgroups.scanFor accepts (bufio.ScanLines content)
  | None => false
  end = true <->
  exists entry, In entry (mountEntries env) /\ P entry.
Proof.
  intros Hacc. unfold mountEntries.
  destruct (readFile env cgroups.mountInfoPath) as [content|].
  - rewrite scanFor_existsb, existsb_exists. split.
    + intros [line [Hin Hline]]. exists (strings.Fields line). split.
      * now apply in_map.
      * now apply Hacc.
    + intros [entry [Hin HP]]. apply in_map_iff in Hin.
      destruct Hin as [line [Heq Hin]]. subst entry.
      exists line. split; [assumption|now apply Hacc].
  - split; [discriminate|]. intros [entry [[] _]].
Qed.

(** X1.  Detection on Linux is a total function that answers V1 or V2 and never
    Unknown, and it decides in this order: the marker file
    [<root>/cgroup.controllers] can be stat'ed, so V2; else some entry of the
    mount table has the cgroup v2 type and a mount point under the root, so
    V2; else some entry has the cgroup v1 type, so V1; else V1 as the assumed
    default.  An empty root stands for [/sys/fs/cgroup], and an entry's type
    and mount point are its seventh and fifth field. *)
Lemma detect_version_order (env : Env) (cgroupRoot : string) :
  let root := cgroups.defaultRoot cgroupRoot in
  let marker := statOk env (filepath.Join [root; "cgroup.controllers"]) in
  let v2Mounted :=
    exists entry, In entry (mountEntries env)
                  /\ hasType "cgroup2" entry /\ mountedUnder root entry in
  let v1Mounted :=
    exists entry, In entry (mountEntries env) /\ hasType "cgroup" entry in
  let version := cgroups.DetectCGroupVersion_linux env cgroupRoot in
  (version = cgroups.CGroupV1 \/ version = cgroups.CGroupV2)
  /\ (marker = true -> version = cgroups.CGroupV2)
  /\ (marker = false -> v2Mounted -> version = cgroups.CGroupV2)
  /\ (marker = false -> ~ v2Mounted -> v1Mounted -> version = cgroups.CGroupV1)
  /\ (marker = false -> ~ v2Mounted -> ~ v1Mounted -> version = cgroups.CGroupV1).
Proof.
  intros root marker v2Mounted v1Mounted version.
  pose proof (scan_finds_entry env (cgroups.isCGroupV2Mount root)
                (fun e => hasType "cgroup2" e /\ mountedUnder root e)
                (isCGroupV2Mount_spec root)) as Hv2.
  unfold version, cgroups.DetectCGroupVersion_linux.
  fold root. fold marker.
  destruct marker eqn:Hmarker.
  - repeat split; auto; discriminate.
  - destruct (match readFile env cgroups.mountInfoPath with
              | Some content => cgroups.scanFor (cgroups.isCGroupV2Mount root) (bufio.ScanLines content)
              | None => false
              end) eqn:Hscan.
    + repeat split; auto; try discriminate.
      intros _ Hno. exfalso. apply Hno. now apply Hv2.
      intros _ Hno. exfalso. apply Hno. now apply Hv2.
    + assert (Hnone : ~ v2Mounted).
      { intros Hyes. apply Hv2 in Hyes. discriminate. }
      repeat split; auto; try discriminate.
      * left. now destruct (match readFile env cgroups.mountInfoPath with
                            | Some content => cgroups.scanFor cgroups.isCGroupV1Mount (bufio.ScanLines content)
                            | None => false
                            end).
      * intros _ Hyes. contradiction.
      * intros _ _ _. now destruct (match readFile env cgroups.mountInfoPath with
                            | Some content => cgroups.scanFor cgroups.isCGroupV1Mount (bufio.ScanLines content)
                            | None => false
                            end).
      * intros _ _ _. now destruct (match readFile env cgroups.mountInfoPath with
                            | Some content => cgroups.scanFor cgroups.isCGroupV1Mount (bufio.ScanLines content)
                            | None => false
                            end).
Qed.

(** C6, the code at the failing input.  On a host in hybrid mode the root
    [/sys/fs/cgroup] holds no [cgroup.controllers], and the mount table has
    an entry of type cgroup2 mounted at [/sys/fs/cgroup/unified], under the
    root.  In the layout of [mountinfo] the type is the field after the
    separator [-], here the ninth; the seventh field, which the detector
    compares with the type, is the optional field [shared:10].  So neither
    scan accepts a line and the detector answers V1, by default. *)
Theorem hybrid_mount_table_detects_v1 :
  statOk Sample.hybrid (filepath.Join ["/sys/fs/cgroup"; "cgroup.controllers"]) = false
  /\ In (strings.Fields Sample.unifiedMountLine) (mountEntries Sample.hybrid)
  /\ strings.Fields Sample.unifiedMountLine
     = ["34"; "33"; "0:29"; "/"; "/sys/fs/cgroup/unified";
        "rw,nosuid,nodev,noexec,relatime"; "shared:10"; "-"; "cgroup2"; "cgroup2";
        "rw,nsdelegate"]
  /\ strings.HasPrefix "/sys/fs/cgroup/unified" "/sys/fs/cgroup" = true
  /\ cgroups.isCGroupV2Mount "/sys/fs/cgroup" Sample.unifiedMountLine = false
  /\ existsb (fun entry => List.existsb (String.eqb "cgroup2") entry)
       (mountEntries Sample.hybrid) = true
  /\ existsb (fun entry => String.eqb (nth 6 entry "") "cgroup2"
                           || String.eqb (nth 6 entry "") "cgroup")
       (mountEntries Sample.hybrid) = false
  /\ cgroups.DetectCGroupVersion_linux Sample.hybrid "/sys/fs/cgroup" = cgroups.CGroupV1
  /\ cgroups.DetectCGroupVersion_linux Sample.hybrid "" = cgroups.CGroupV1.
Proof.
  split; [reflexivity|]. split.
  - vm_compute. right. right. left. reflexivity.
  - repeat split; reflexivity.
Qed.

(** ** Decimal numbers and fields *)

Lemma uintValue_grows (d : Decimal.uint) (acc : Z) : 0 <= acc -> acc <= uintValue acc d.
Proof.
  revert acc. induction d; intros acc Hacc; simpl; try lia;
    (etransitivity; [|apply IHd; lia]; lia).
Qed.

Lemma of_uint_acc_value (d : Decimal.uint) (acc : positive) :
  Z.pos (Pos.of_uint_acc d acc) = uintValue (Z.pos acc) d.
Proof.
  revert acc. induction d; intros acc; cbn [Pos.of_uint_acc uintValue]; try reflexivity;
    rewrite IHd; f_equal; lia.
Qed.

Lemma of_uint_value (d : Decimal.uint) : Z.of_N (Pos.of_uint d) = uintValue 0 d.
Proof.
  induction d; cbn [Pos.of_uint uintValue Z.of_N]; try reflexivity; try assumption;
    rewrite of_uint_acc_value; reflexivity.
Qed.

Lemma parseDigits_of_uint (d : Decimal.uint) (acc : Z) :
  0 <= acc ->
  uintValue acc d <= GoInt.maxUint64 ->
  strconv.parseDigits acc (NilEmpty.string_of_uint d) = inl (uintValue acc d).
Proof.
  revert acc. induction d; intros acc Hacc Hmax;
    cbn [NilEmpty.string_of_uint uintValue strconv.parseDigits]; try reflexivity.
  all: match goal with
       | |- context [strconv.digit ?c] =>
         change (strconv.digit c) with (Some (Z.of_N (strings.byte c) - 48)); cbv iota zeta;
         change (Z.of_N (strings.byte c) - 48) with
           ltac:(let v := eval vm_compute in (Z.of_N (strings.byte c) - 48) in exact v)
       end.
  all: cbn [uintValue] in Hmax.
  all: match goal with
       | |- context [GoInt.maxUint64 <? ?n] =>
         pose proof (uintValue_grows d n ltac:(lia)) as Hgrow;
         destruct (Z.ltb_spec GoInt.maxUint64 n) as [Hover|Hfit]; [lia|]
       end.
  all: apply IHd; [lia|exact Hmax].
Qed.

Lemma allDigits_of_uint (d : Decimal.uint) : allDigits (NilEmpty.string_of_uint d) = true.
Proof.
  induction d; cbn [NilEmpty.string_of_uint allDigits]; try reflexivity;
    match goal with
    | |- context [strconv.digit ?c] =>
      change (strconv.digit c) with (Some (Z.of_N (strings.byte c) - 48)); assumption
    end.
Qed.


(** The decimal digits of a positive number. *)
Lemma Itoa_positive (n : Z) :
  0 < n ->
  exists d, d <> Decimal.Nil /\ strconv.Itoa n = NilEmpty.string_of_uint d /\ uintValue 0 d = n.
Proof.
  intros Hn. destruct n as [|p|p]; try lia.
  exists (Pos.to_uint p). split; [apply DecimalPos.Unsigned.to_uint_nonnil|]. split.
  - unfold strconv.Itoa. cbn [Z.to_int NilZero.string_of_int NilZero.string_of_uint].
    pose proof (DecimalPos.Unsigned.to_uint_nonnil p). now destruct (Pos.to_uint p).
  - rewrite <- of_uint_value, DecimalPos.Unsigned.of_to. reflexivity.
Qed.

Lemma Itoa_allDigits (n : Z) : 0 < n -> allDigits (strconv.Itoa n) = true.
Proof.
  intros Hn. destruct (Itoa_positive n Hn) as (d & _ & -> & _). apply allDigits_of_uint.
Qed.

Lemma Itoa_nonempty (n : Z) : 0 < n -> strconv.Itoa n <> "".
Proof.
  intros Hn. destruct (Itoa_positive n Hn) as (d & Hd & -> & _).
  destruct d; try discriminate. now contradiction Hd.
Qed.

(** [ParseInt] reads a positive [int64] back from its decimal digits. *)
Lemma ParseInt_Itoa (n : Z) : 0 < n < 2 ^ 63 -> strconv.ParseInt (strconv.Itoa n) = inl n.
Proof.
  intros Hn. destruct (Itoa_positive n ltac:(lia)) as (d & Hd & Hs & Hv).
  pose proof (parseDigits_of_uint d 0 ltac:(lia)) as Hparse.
  rewrite Hv, <- Hs in Hparse. specialize (Hparse ltac:(unfold GoInt.maxUint64; lia)).
  pose proof (Itoa_allDigits n ltac:(lia)) as Hdigits.
  unfold strconv.ParseInt, strconv.parseInt.
  destruct (strconv.Itoa n) as [|c r] eqn:Hitoa.
  - subst. destruct d; try discriminate; now contradiction Hd.
  - cbn [allDigits] in Hdigits.
    assert (Hsign : (c =? "+")%char = false /\ (c =? "-")%char = false).
    { split; apply Ascii.eqb_neq; intros ->; discriminate Hdigits. }
    destruct Hsign as [-> ->]. cbn [orb negb andb].
    unfold strconv.ParseUint. rewrite Hparse.
    destruct (Z.leb_spec (2 ^ 63) n); [lia|reflexivity].
Qed.

Lemma spaceWidth_digit (c : ascii) (r : string) :
  strconv.digit c <> None -> strings.spaceWidth (String c r) = 0%nat.
Proof.
  unfold strconv.digit. intros Hdigit.
  destruct ((48 <=? strings.byte c) && (strings.byte c <=? 57))%N eqn:E;
    [|now contradiction Hdigit].
  apply andb_true_iff in E. destruct E as [Hlo Hhi].
  apply N.leb_le in Hlo. apply N.leb_le in Hhi.
  unfold strings.spaceWidth, strings.asciiSpace. cbv zeta.
  replace (strings.byte c <=? 13)%N with false by (symmetry; apply N.leb_gt; lia).
  replace (strings.byte c =? 32)%N with false by (symmetry; apply N.eqb_neq; lia).
  rewrite andb_false_r. cbn [orb].
  destruct r as [|c1 r1]; [reflexivity|].
  replace (strings.byte c =? 194)%N with false by (symmetry; apply N.eqb_neq; lia).
  cbn [andb].
  destruct r1 as [|c2 r2]; [reflexivity|].
  replace (strings.byte c =? 225)%N with false by (symmetry; apply N.eqb_neq; lia).
  replace (strings.byte c =? 226)%N with false by (symmetry; apply N.eqb_neq; lia).
  replace (strings.byte c =? 227)%N with false by (symmetry; apply N.eqb_neq; lia).
  reflexivity.
Qed.

Lemma append_empty_r (s : string) : s ++ "" = s.
Proof.
  induction s as [|c s IH]; [reflexivity|]. cbn [append]. now rewrite IH.
Qed.

Lemma splitFields_step (c : ascii) (r : string) :
  strings.splitFields 0 (String c r)
  = match strings.spaceWidth (String c r) with
    | O => let (w, ws) := strings.splitFields 0 r in (String c w, ws)
    | S k => let (w, ws) := strings.splitFields k r in (EmptyString, strings.consField w ws)
    end.
Proof. reflexivity. Qed.

Lemma trimLeftSpace_step (c : ascii) (r : string) :
  strings.trimLeftSpace 0 (String c r)
  = match strings.spaceWidth (String c r) with
    | O => String c r
    | S k => strings.trimLeftSpace k r
    end.
Proof. reflexivity. Qed.

(** A run of digits at the head of a string is the head of its first field. *)
Lemma splitFields_digits (a rest : string) :
  allDigits a = true ->
  strings.splitFields 0 (a ++ rest)
  = (a ++ fst (strings.splitFields 0 rest), snd (strings.splitFields 0 rest)).
Proof.
  induction a as [|c a IH]; intros Hdigits.
  - cbn [append]. now destruct (strings.splitFields 0 rest).
  - cbn [allDigits] in Hdigits.
    destruct (strconv.digit c) as [v|] eqn:Hc; [|discriminate].
    cbn [append]. rewrite splitFields_step, spaceWidth_digit by (rewrite Hc; discriminate).
    rewrite (IH Hdigits). reflexivity.
Qed.

Lemma trimRightSpace_digits (a rest : string) :
  allDigits a = true ->
  strings.trimRightSpace (a ++ rest) = a ++ strings.trimRightSpace rest.
Proof.
  induction a as [|c a IH]; intros Hdigits; [reflexivity|].
  cbn [allDigits] in Hdigits.
  destruct (strconv.digit c) as [v|] eqn:Hc; [|discriminate].
  cbn [append strings.trimRightSpace]. unfold strings.allSpace.
  rewrite trimLeftSpace_step, spaceWidth_digit by (rewrite Hc; discriminate).
  now rewrite (IH Hdigits).
Qed.

(** Two runs of digits with a space between them and white space after them
    are the two fields of the string. *)
Lemma Fields_of_two_numbers (a b eol : string) :
  allDigits a = true -> a <> "" ->
  allDigits b = true -> b <> "" ->
  strings.allSpace eol = true ->
  strings.Fields (strings.TrimSpace (a ++ " " ++ b ++ eol)) = [a; b].
Proof.
  intros Ha Hane Hb Hbne Heol.
  assert (Hhead : forall s rest, allDigits s = true -> s <> "" ->
                                 strings.trimLeftSpace 0 (s ++ rest) = s ++ rest).
  { intros [|c s] rest Hs Hne; [now contradiction Hne|].
    cbn [allDigits] in Hs. destruct (strconv.digit c) eqn:Hc; [|discriminate].
    cbn [append]. rewrite trimLeftSpace_step, spaceWidth_digit by (rewrite Hc; discriminate).
    reflexivity. }
  assert (Htail : strings.trimRightSpace eol = "").
  { destruct eol as [|c r]; [reflexivity|]. cbn [strings.trimRightSpace]. now rewrite Heol. }
  unfold strings.TrimSpace. rewrite (Hhead a _ Ha Hane).
  rewrite (trimRightSpace_digits a _ Ha).
  assert (Hmid : strings.trimRightSpace (" " ++ b ++ eol) = " " ++ b).
  { change (" " ++ b ++ eol) with (String " " (b ++ eol)).
    cbn [strings.trimRightSpace]. unfold strings.allSpace.
    rewrite trimLeftSpace_step. change (strings.spaceWidth (String " " (b ++ eol))) with 1%nat.
    cbv iota. rewrite (Hhead b eol Hb Hbne).
    destruct b as [|c b]; [now contradiction Hbne|]. cbn [append].
    rewrite <- (append_empty_r b) at 2.
    change (String c (b ++ eol)) with (String c b ++ eol).
    rewrite (trimRightSpace_digits (String c b) eol Hb), Htail.
    cbn [append]. now rewrite append_empty_r. }
  rewrite Hmid. unfold strings.Fields.
  rewrite (splitFields_digits a _ Ha).
  change (" " ++ b) with (String " " b).
  rewrite splitFields_step. change (strings.spaceWidth (String " " b)) with 1%nat. cbv iota.
  rewrite <- (append_empty_r b) at 1 2. rewrite (splitFields_digits b "" Hb).
  cbn [strings.splitFields fst snd]. rewrite !append_empty_r.
  destruct a as [|ca a]; [now contradiction Hane|].
  destruct b as [|cb b]; [now contradiction Hbne|].
  reflexivity.
Qed.

(** ** CPU quota under cgroup v2 *)

Lemma ParseInt_not_max (part : string) (n : Z) :
  strconv.ParseInt part = inl n -> String.eqb part "max" = false.
Proof.
  intros Hparse. apply String.eqb_neq. intros ->. discriminate Hparse.
Qed.

Section ResolvedControlGroup.

(** The control group of process [pid] under [root] has been looked up in
    [/proc/<pid>/cgroup] and found: it is the directory [path], and its
    [cpu.max] holds [content]. *)
Variable DefaultRoundFunc : float -> Z.
Variable env : Env.
Variables root pid path content : string.
Hypothesis group_found : cgroups.FindCGroupV2Path env pid root = (path, None).
Hypothesis group_named : path <> "".
Hypothesis cpu_max_read : readFile env (filepath.Join [path; "cpu.max"]) = Some content.

(** The resolution is then the reading of [cpu.max] followed by the rounding
    and the floor. *)
Lemma resolution_at_path (minValue : Z) (round : option (float -> Z)) :
  runtime.GetCPUQuotaToCPUCntByPidForCgroups2 DefaultRoundFunc env root pid minValue round =
  match cgroups.CPUQuota env path with
  | (_, _, Some err) => (-1, CPUQuotaUndefined, Some err)
  | (quota, defined, None) =>
    if negb defined then (-1, CPUQuotaUndefined, None)
    else
      let maxProcs := roundOf DefaultRoundFunc round quota in
      if (0 <? minValue) && (maxProcs <? minValue)
      then (minValue, CPUQuotaMinUsed, None)
      else (maxProcs, CPUQuotaUsed, None)
  end.
Proof.
  unfold runtime.GetCPUQuotaToCPUCntByPidForCgroups2. rewrite group_found.
  apply String.eqb_neq in group_named. rewrite group_named. reflexivity.
Qed.

(** What [CPUQuota] makes of the fields of [cpu.max]. *)
Lemma CPUQuota_of_fields :
  cgroups.CPUQuota env path =
  match strings.Fields (strings.TrimSpace content) with
  | [part0; part1] =>
    if String.eqb part0 "max" then (0%float, false, None)
    else
      match strconv.ParseInt part0 with
      | inr err => (0%float, false, Some err)
      | inl quota =>
        match strconv.ParseInt part1 with
        | inr err => (0%float, false, Some err)
        | inl period =>
          if period <=? 0 then (0%float, false, None)
          else (PrimFloat.div (GoInt.float64_of_int quota) (GoInt.float64_of_int period),
                true, None)
        end
      end
  | _ => (0%float, false, None)
  end.
Proof.
  unfold cgroups.CPUQuota, cgroups.CGroupV2CPUQuotaFile.
  rewrite cpu_max_read. reflexivity.
Qed.

(** A malformed [cpu.max] -- not exactly two fields, or a period that is not
    positive -- leaves the quota undefined and reports no error. *)
Lemma CPUQuota_malformed :
  (List.length (strings.Fields (strings.TrimSpace content)) <> 2%nat
   \/ exists part0 part1 quota period,
        strings.Fields (strings.TrimSpace content) = [part0; part1]
        /\ strconv.ParseInt part0 = inl quota
        /\ strconv.ParseInt part1 = inl period
        /\ period <= 0) ->
  cgroups.CPUQuota env path = (0%float, false, None).
Proof.
  intros Hbad. rewrite CPUQuota_of_fields.
  destruct Hbad as [Hlen | (part0 & part1 & quota & period & Hfields & Hq & Hp & Hle)].
  - destruct (strings.Fields (strings.TrimSpace content)) as [|a [|b [|c rest]]];
      try reflexivity.
    now contradiction Hlen.
  - rewrite Hfields, (ParseInt_not_max part0 quota Hq), Hq, Hp.
    apply Z.leb_le in Hle. now rewrite Hle.
Qed.

(** C5.  When the first field of the [cpu.max] that the resolution reads is
    the marker [max], the resolution returns [-1] with status Undefined and
    no error, whatever the minimum and the rounding function are. *)
Theorem cpu_max_unlimited_is_undefined (minValue : Z) (round : option (float -> Z)) :
  hd_error (strings.Fields (strings.TrimSpace content)) = Some "max" ->
  runtime.GetCPUQuotaToCPUCntByPidForCgroups2 DefaultRoundFunc env root pid minValue round
  = (-1, CPUQuotaUndefined, None).
Proof.
  intros Hmax. rewrite resolution_at_path, CPUQuota_of_fields.
  destruct (strings.Fields (strings.TrimSpace content)) as [|part0 [|part1 [|part2 rest]]];
    try reflexivity.
  simpl in Hmax. injection Hmax as ->. reflexivity.
Qed.

(** C2, as the code has it.  A [cpu.max] with a field count other than two,
    or with two fields that parse and a period that is not positive, is no
    error: [CPUQuota] answers "not defined" with a nil error, the resolution
    returns [-1] with status Undefined and a nil error, and the caller
    [GetCPUCntByPidForCgroups2] returns the host's CPU count with a nil
    error. *)
Theorem malformed_cpu_max_is_undefined (minValue : Z) (round : option (float -> Z)) :
  (List.length (strings.Fields (strings.TrimSpace content)) <> 2%nat
   \/ exists part0 part1 quota period,
        strings.Fields (strings.TrimSpace content) = [part0; part1]
        /\ strconv.ParseInt part0 = inl quota
        /\ strconv.ParseInt part1 = inl period
        /\ period <= 0) ->
  cgroups.CPUQuota env path = (0%float, false, None)
  /\ runtime.GetCPUQuotaToCPUCntByPidForCgroups2 DefaultRoundFunc env root pid minValue round
     = (-1, CPUQuotaUndefined, None)
  /\ automaxprocs.GetCPUCntByPidForCgroups2 DefaultRoundFunc env root pid
     = (NumCPU env, None).
Proof.
  intros Hbad. pose proof (CPUQuota_malformed Hbad) as Hquota.
  split; [assumption|]. split.
  - rewrite resolution_at_path, Hquota. reflexivity.
  - unfold automaxprocs.GetCPUCntByPidForCgroups2.
    rewrite resolution_at_path, Hquota. reflexivity.
Qed.

(** A [cpu.max] whose two fields parse as a quota and a period, both
    positive: the ratio is rounded, and the minimum is the floor of the
    result. *)
Lemma parsed_cpu_max_is_rounded (minValue : Z) (round : option (float -> Z))
    (part0 part1 : string) (quota period : Z) :
  strings.Fields (strings.TrimSpace content) = [part0; part1] ->
  strconv.ParseInt part0 = inl quota ->
  strconv.ParseInt part1 = inl period ->
  0 < period ->
  let rounded :=
    roundOf DefaultRoundFunc round
      (PrimFloat.div (GoInt.float64_of_int quota) (GoInt.float64_of_int period)) in
  runtime.GetCPUQuotaToCPUCntByPidForCgroups2 DefaultRoundFunc env root pid minValue round
  = if (0 <? minValue) && (rounded <? minValue)
    then (minValue, CPUQuotaMinUsed, None)
    else (rounded, CPUQuotaUsed, None).
Proof.
  intros Hfields Hq Hp Hperiod rounded.
  rewrite resolution_at_path, CPUQuota_of_fields.
  rewrite Hfields, (ParseInt_not_max part0 quota Hq), Hq, Hp.
  assert (Hpos : (period <=? 0) = false) by (apply Z.leb_gt; assumption).
  rewrite Hpos. reflexivity.
Qed.

End ResolvedControlGroup.

Lemma cpu_max_unlimited_is_undefined_witness :
  runtime.GetCPUQuotaToCPUCntByPidForCgroups2 Sample.floor
    (Sample.cpuMax "max 100000
") "" "1234" 4 None
  = (-1, CPUQuotaUndefined, None).
Proof.
  apply (cpu_max_unlimited_is_undefined Sample.floor (Sample.cpuMax "max 100000
") "" "1234" Sample.podDir "max 100000
").
  - reflexivity.
  - discriminate.
  - reflexivity.
  - reflexivity.
Defined.

Lemma malformed_cpu_max_is_undefined_witness :
  cgroups.CPUQuota (Sample.cpuMax "100000 0
") Sample.podDir = (0%float, false, None)
  /\ runtime.GetCPUQuotaToCPUCntByPidForCgroups2 Sample.floor
       (Sample.cpuMax "100000 0
") "" "1234" 1 None = (-1, CPUQuotaUndefined, None)
  /\ automaxprocs.GetCPUCntByPidForCgroups2 Sample.floor
       (Sample.cpuMax "100000 0
") "" "1234" = (8, None).
Proof.
  apply (malformed_cpu_max_is_undefined Sample.floor (Sample.cpuMax "100000 0
") "" "1234" Sample.podDir "100000 0
").
  - reflexivity.
  - discriminate.
  - reflexivity.
  - right. exists "100000", "0", 100000, 0. repeat split; try reflexivity; lia.
Defined.

(** C2, the claim refuted.  Neither a single field nor a zero period makes
    an error reach the caller: the resolution succeeds with status
    Undefined, and the caller gets the host's eight CPUs and a nil error. *)
Lemma malformed_cpu_max_raises_no_error :
  List.length (strings.Fields (strings.TrimSpace "100000
")) = 1%nat
  /\ runtime.GetCPUQuotaToCPUCntByPidForCgroups2 Sample.floor
       (Sample.cpuMax "100000
") "" "1234" 1 None = (-1, CPUQuotaUndefined, None)
  /\ automaxprocs.GetCPUCntByPidForCgroups2 Sample.floor
       (Sample.cpuMax "100000
") "" "1234" = (8, None)
  /\ strings.Fields (strings.TrimSpace "100000 0
") = ["100000"; "0"]
  /\ runtime.GetCPUQuotaToCPUCntByPidForCgroups2 Sample.floor
       (Sample.cpuMax "100000 0
") "" "1234" 1 None = (-1, CPUQuotaUndefined, None)
  /\ automaxprocs.GetCPUCntByPidForCgroups2 Sample.floor
       (Sample.cpuMax "100000 0
") "" "1234" = (8, None).
Proof.
  repeat split; reflexivity.
Qed.

(** C4.  For a [cpu.max] that holds a positive quota and a positive period
    in decimal, a space between them and white space (the line feed) after
    them, the resolution rounds [quota / period] with the rounding function
    of the call.  The rounded value is a core count, not negative; then for
    every minimum: a rounded value of at least the minimum is returned with
    status Used, and below the minimum the minimum is returned with status
    MinUsed. *)
Theorem positive_cpu_max_is_rounded (DefaultRoundFunc : float -> Z) (env : Env)
    (root pid : string) (minValue : Z) (round : option (float -> Z))
    (path eol : string) (quota period : Z) :
  cgroups.FindCGroupV2Path env pid root = (path, None) ->
  path <> "" ->
  0 < quota < 2 ^ 63 ->
  0 < period < 2 ^ 63 ->
  strings.allSpace eol = true ->
  readFile env (filepath.Join [path; "cpu.max"])
  = Some (strconv.Itoa quota ++ " " ++ strconv.Itoa period ++ eol) ->
  let rounded :=
    roundOf DefaultRoundFunc round
      (PrimFloat.div (GoInt.float64_of_int quota) (GoInt.float64_of_int period)) in
  0 <= rounded ->
  (minValue <= rounded ->
   runtime.GetCPUQuotaToCPUCntByPidForCgroups2 DefaultRoundFunc env root pid minValue round
   = (rounded, CPUQuotaUsed, None))
  /\ (rounded < minValue ->
      runtime.GetCPUQuotaToCPUCntByPidForCgroups2 DefaultRoundFunc env root pid minValue round
      = (minValue, CPUQuotaMinUsed, None)).
Proof.
  intros Hfind Hpath Hquota Hperiod Heol Hread rounded Hrounded.
  assert (Hfields : strings.Fields
                      (strings.TrimSpace
                         (strconv.Itoa quota ++ " " ++ strconv.Itoa period ++ eol))
                    = [strconv.Itoa quota; strconv.Itoa period]).
  { apply Fields_of_two_numbers; try assumption.
    - apply Itoa_allDigits; lia.
    - apply Itoa_nonempty; lia.
    - apply Itoa_allDigits; lia.
    - apply Itoa_nonempty; lia. }
  rewrite (parsed_cpu_max_is_rounded DefaultRoundFunc env root pid path _
             Hfind Hpath Hread minValue round _ _ quota period Hfields
             (ParseInt_Itoa quota Hquota) (ParseInt_Itoa period Hperiod)) by lia.
  fold rounded. split; intros Hcmp.
  - assert (Hlt : (rounded <? minValue) = false) by (apply Z.ltb_ge; assumption).
    rewrite Hlt, andb_false_r. reflexivity.
  - assert (Hlt : (rounded <? minValue) = true) by (apply Z.ltb_lt; assumption).
    assert (Hmin : (0 <? minValue) = true) by (apply Z.ltb_lt; lia).
    rewrite Hlt, Hmin. reflexivity.
Qed.

Lemma positive_cpu_max_is_rounded_witness :
  runtime.GetCPUQuotaToCPUCntByPidForCgroups2 Sample.floor
    (Sample.cpuMax "250000 100000
") "" "1234" 1 None = (2, CPUQuotaUsed, None).
Proof.
  refine (proj1 (positive_cpu_max_is_rounded Sample.floor (Sample.cpuMax "250000 100000
") "" "1234" 1 None Sample.podDir "
" 250000 100000 _ _ _ _ _ _ _) _).
  - reflexivity.
  - discriminate.
  - lia.
  - lia.
  - reflexivity.
  - reflexivity.
  - vm_compute. discriminate.
  - vm_compute. discriminate.
Defined.

(** X2.  A positive minimum is a floor: whatever the files hold and however the
    ratio is rounded, a result with status Used or MinUsed is at least the
    minimum. *)
Lemma positive_minimum_is_a_floor (DefaultRoundFunc : float -> Z) (env : Env)
    (root pid : string) (minValue : Z) (round : option (float -> Z))
    (value : Z) (status : CPUQuotaStatus) (err : option error) :
  0 < minValue ->
  runtime.GetCPUQuotaToCPUCntByPidForCgroups2 DefaultRoundFunc env root pid minValue round
  = (value, status, err) ->
  status <> CPUQuotaUndefined ->
  minValue <= value.
Proof.
  intros Hmin. unfold runtime.GetCPUQuotaToCPUCntByPidForCgroups2.
  destruct (cgroups.FindCGroupV2Path env pid root) as [path [e|]];
    [intros [= _ <- _] Hs; now contradiction Hs|].
  destruct (String.eqb path ""); [intros [= _ <- _] Hs; now contradiction Hs|].
  destruct (cgroups.CPUQuota env path) as [[quota defined] [e|]];
    [intros [= _ <- _] Hs; now contradiction Hs|].
  destruct defined; cbn [negb]; [|intros [= _ <- _] Hs; now contradiction Hs].
  apply Z.ltb_lt in Hmin. rewrite Hmin. cbn [andb].
  match goal with |- context [?r <? minValue] => destruct (Z.ltb_spec r minValue) end.
  - intros [= <- _ _] _. lia.
  - intros [= <- _ _] _. assumption.
Qed.

Lemma positive_minimum_is_a_floor_witness :
  runtime.GetCPUQuotaToCPUCntByPidForCgroups2 Sample.floor
    (Sample.cpuMax "250000 100000
") "" "1234" 4 None = (4, CPUQuotaMinUsed, None)
  /\ 4 <= 4.
Proof.
  split; [reflexivity|].
  apply (positive_minimum_is_a_floor Sample.floor (Sample.cpuMax "250000 100000
") "" "1234" 4 None 4 CPUQuotaMinUsed None).
  - lia.
  - reflexivity.
  - discriminate.
Defined.

(** ** Memory *)

Lemma wrap64_small (z : Z) : - 2 ^ 63 <= z < 2 ^ 63 -> GoInt.wrap64 z = z.
Proof.
  intros Hz. unfold GoInt.wrap64. rewrite Z.mod_small; lia.
Qed.

Lemma parseDigits_nonneg (s : string) (acc n : Z) :
  0 <= acc -> strconv.parseDigits acc s = inl n -> 0 <= n.
Proof.
  revert acc. induction s as [|c r IH]; intros acc Hacc; simpl.
  - intros [= <-]. assumption.
  - unfold strconv.digit.
    destruct ((48 <=? strings.byte c) && (strings.byte c <=? 57))%N eqn:Hd; [|discriminate].
    apply andb_true_iff in Hd. destruct Hd as [Hlo Hhi]. apply N.leb_le in Hlo.
    destruct (GoInt.maxUint64 <? acc * 10 + (Z.of_N (strings.byte c) - 48)); [discriminate|].
    apply IH. lia.
Qed.

(** What [ParseInt] accepts is an [int64]. *)
Lemma parseInt_range (fn s : string) (n : Z) :
  strconv.parseInt fn s = inl n -> - 2 ^ 63 <= n < 2 ^ 63.
Proof.
  unfold strconv.parseInt. destruct s as [|c r]; [discriminate|].
  set (s := if (c =? "+")%char || (c =? "-")%char then r else String c r).
  unfold strconv.ParseUint.
  assert (Hun : forall un, strconv.parseDigits 0 s = inl un -> 0 <= un).
  { intros un. apply parseDigits_nonneg. lia. }
  destruct s as [|c' r']; [discriminate|].
  destruct (strconv.parseDigits 0 (String c' r')) as [un|[]]; try discriminate.
  specialize (Hun un eq_refl).
  destruct (c =? "-")%char; cbn [negb andb].
  - destruct (2 ^ 63 <? un) eqn:Hcut; [discriminate|].
    apply Z.ltb_ge in Hcut. intros [= <-]. lia.
  - destruct (2 ^ 63 <=? un) eqn:Hcut; [discriminate|].
    apply Z.leb_gt in Hcut. intros [= <-]. lia.
Qed.

Lemma MemoryLimit_range (env : Env) (path : string) (limit : Z) :
  cgroups.MemoryLimit env path = (limit, true, None) -> - 2 ^ 63 <= limit < 2 ^ 63.
Proof.
  unfold cgroups.MemoryLimit.
  destruct (readFile env _) as [content|]; [|discriminate].
  destruct (String.eqb _ "max"); [discriminate|].
  destruct (strconv.ParseInt _) as [n|err] eqn:Hparse; [|discriminate].
  intros [= <-]. exact (parseInt_range _ _ _ Hparse).
Qed.

Lemma MemoryUsage_range (env : Env) (path : string) (usage : Z) :
  mem.getCGroupV2MemoryUsage env path = (usage, None) -> - 2 ^ 63 <= usage < 2 ^ 63.
Proof.
  unfold mem.getCGroupV2MemoryUsage.
  destruct (readFile env _) as [content|]; [|discriminate].
  destruct (strconv.ParseInt _) as [n|err] eqn:Hparse; [|discriminate].
  intros [= <-]. exact (parseInt_range _ _ _ Hparse).
Qed.

(** [FindCGroupV2Path] applies the default root itself. *)
Lemma FindCGroupV2Path_default (env : Env) (pid root : string) :
  cgroups.FindCGroupV2Path env pid (cgroups.defaultRoot root)
  = cgroups.FindCGroupV2Path env pid root.
Proof.
  unfold cgroups.FindCGroupV2Path.
  assert (Hidem : cgroups.defaultRoot (cgroups.defaultRoot root) = cgroups.defaultRoot root).
  { unfold cgroups.defaultRoot. destruct (String.eqb root "") eqn:E; [reflexivity|].
    now rewrite E. }
  now rewrite Hidem.
Qed.

Lemma add64_sub64 (a b c : Z) :
  GoInt.add64 (GoInt.sub64 a b) c = GoInt.wrap64 (a - b + c).
Proof.
  unfold GoInt.add64, GoInt.sub64, GoInt.wrap64. f_equal.
  replace ((a - b + 2 ^ 63) mod 2 ^ 64 - 2 ^ 63 + c + 2 ^ 63)
    with ((a - b + 2 ^ 63) mod 2 ^ 64 + c) by lia.
  rewrite Zplus_mod_idemp_l. f_equal. lia.
Qed.

Lemma wrap64_add_l (a b : Z) : GoInt.wrap64 (GoInt.wrap64 a + b) = GoInt.wrap64 (a + b).
Proof.
  unfold GoInt.wrap64. f_equal.
  replace ((a + 2 ^ 63) mod 2 ^ 64 - 2 ^ 63 + b + 2 ^ 63)
    with ((a + 2 ^ 63) mod 2 ^ 64 + b) by lia.
  rewrite Zplus_mod_idemp_l. f_equal. lia.
Qed.

Lemma wrap64_add_r (a b : Z) : GoInt.wrap64 (a + GoInt.wrap64 b) = GoInt.wrap64 (a + b).
Proof.
  rewrite Z.add_comm, wrap64_add_l. f_equal. lia.
Qed.

Lemma addFileLine_figure (cache : Z) (line : string) :
  mem.addFileLine cache line = fold_left GoInt.add64 (fileFigure line) cache.
Proof.
  unfold mem.addFileLine, fileFigure.
  destruct (strings.HasPrefix line "file "); [|reflexivity].
  destruct (strings.Fields line) as [|part0 [|part1 [|part2 more]]]; try reflexivity.
  now destruct (strconv.ParseInt part1).
Qed.

Lemma fold_add64_sum (figures : list Z) (a : Z) :
  fold_left GoInt.add64 figures (GoInt.wrap64 a)
  = GoInt.wrap64 (a + fold_right Z.add 0 figures).
Proof.
  revert a. induction figures as [|n rest IH]; intros a.
  - cbn [fold_left fold_right]. now rewrite Z.add_0_r.
  - cbn [fold_left fold_right]. unfold GoInt.add64 at 2. rewrite wrap64_add_l, IH.
    f_equal. lia.
Qed.

Lemma fold_addFileLine_sum (lines : list string) (a : Z) :
  fold_left mem.addFileLine lines (GoInt.wrap64 a)
  = GoInt.wrap64 (a + fold_right Z.add 0 (flat_map fileFigure lines)).
Proof.
  revert a. induction lines as [|line rest IH]; intros a.
  - cbn [fold_left flat_map fold_right]. now rewrite Z.add_0_r.
  - cbn [fold_left flat_map]. rewrite addFileLine_figure, fold_add64_sum, IH.
    f_equal. rewrite fold_right_app.
    assert (Hsplit : forall l b, fold_right Z.add b l = fold_right Z.add 0 l + b).
    { induction l as [|x l IHl]; intros b; cbn [fold_right]; [lia|]. rewrite IHl. lia. }
    rewrite (Hsplit (fileFigure line) (fold_right Z.add 0 (flat_map fileFigure rest))). lia.
Qed.

(** The page cache the code takes from [memory.stat] is the sum of its
    [file] figures, as an [int64]. *)
Lemma memory_cache_is_file_sum (env : Env) (path stat : string) :
  readFile env (path ++ "/memory.stat") = Some stat ->
  mem.getCGroupV2MemoryCache env path = (GoInt.wrap64 (fileSum stat), None).
Proof.
  intros Hread. unfold mem.getCGroupV2MemoryCache, fileSum. rewrite Hread.
  change 0 with (GoInt.wrap64 0) at 1. now rewrite fold_addFileLine_sum.
Qed.

Section TargetInUnifiedHierarchy.

(** The context names a target process and a cgroup root (possibly the
    empty string), and the control group of the process is found in the
    unified hierarchy: it is the directory [path]. *)
Variable env : Env.
Variable ctx : Context.
Variables pidStr root path : string.
Variable p : Z.
Hypothesis target_named : ctx_ns_target ctx = stringValue pidStr.
Hypothesis target_parsed : strconv.Atoi pidStr = inl p.
Hypothesis root_given : ctx_cgroup_root ctx = stringValue root.
Hypothesis group_found : cgroups.FindCGroupV2Path env (strconv.Itoa p) root = (path, None).
Hypothesis group_named : path <> "".

(** The cgroup v2 tier gets as far as reading the limit. *)
Lemma v2_tier_at_limit (burnMemMode : string) (includeBufferCache : bool) :
  mem.getAvailableAndTotalV2 env ctx burnMemMode includeBufferCache
  = match cgroups.MemoryLimit env path with
    | (_, _, Some _) => Returns (mem.getSystemMemory env burnMemMode includeBufferCache)
    | (limit, defined, None) =>
      if negb defined || (limit =? 0)
      then Returns (mem.getSystemMemory env burnMemMode includeBufferCache)
      else
        match mem.getCGroupV2MemoryUsage env path with
        | (_, Some _) => Returns (mem.getSystemMemory env burnMemMode includeBufferCache)
        | (usage, None) =>
          Returns
            (limit,
             if String.eqb burnMemMode "ram" && negb includeBufferCache then
               match mem.getCGroupV2MemoryCache env path with
               | (cache, None) => GoInt.add64 (GoInt.sub64 limit usage) cache
               | (_, Some _) => GoInt.sub64 limit usage
               end
             else GoInt.sub64 limit usage,
             None)
        end
    end.
Proof.
  unfold mem.getAvailableAndTotalV2. rewrite target_named. cbn [assertString bindOutcome].
  rewrite target_parsed, root_given. cbn [isEmptyString].
  assert (Hfind : cgroups.FindCGroupV2Path env (strconv.Itoa p)
                    (if String.eqb root "" then "/sys/fs/cgroup" else root) = (path, None)).
  { rewrite <- group_found, <- (FindCGroupV2Path_default env (strconv.Itoa p) root).
    reflexivity. }
  apply String.eqb_neq in group_named.
  destruct (String.eqb root "") eqn:Hempty; cbn [assertString bindOutcome];
    rewrite Hfind, group_named; reflexivity.
Qed.

(** X3.  An unlimited [memory.max] -- the marker [max], white space around it
    aside -- sends the cgroup v2 tier to the host's figures. *)
Lemma unlimited_memory_max_reads_host (burnMemMode : string) (includeBufferCache : bool)
    (content : string) :
  readFile env (filepath.Join [path; "memory.max"]) = Some content ->
  strings.TrimSpace content = "max" ->
  mem.getAvailableAndTotalV2 env ctx burnMemMode includeBufferCache
  = Returns (mem.getSystemMemory env burnMemMode includeBufferCache).
Proof.
  intros Hread Hmax. rewrite v2_tier_at_limit.
  unfold cgroups.MemoryLimit, cgroups.CGroupV2MemoryLimitFile.
  now rewrite Hread, Hmax.
Qed.

(** C1.  With a defined, non-zero [memory.max] and a readable
    [memory.current] and [memory.stat], when the policy
    [includeReclaimableCache] is true the total is the limit and the
    available memory is the total less [memory.current] plus the sum of the
    [file] field of [memory.stat], computed in [int64] as the code's figures
    are: it is that number whenever the number is an [int64]. *)
Theorem v2_memory_total_and_available (burnMemMode : string) (includeBufferCache : bool)
    (limit usage : Z) (stat : string) :
  cgroups.MemoryLimit env path = (limit, true, None) ->
  limit <> 0 ->
  mem.getCGroupV2MemoryUsage env path = (usage, None) ->
  readFile env (path ++ "/memory.stat") = Some stat ->
  includeReclaimableCache burnMemMode includeBufferCache = true ->
  mem.getAvailableAndTotalV2 env ctx burnMemMode includeBufferCache
  = Returns (limit, GoInt.wrap64 (limit - usage + fileSum stat), None)
  /\ (- 2 ^ 63 <= limit - usage + fileSum stat < 2 ^ 63 ->
      mem.getAvailableAndTotalV2 env ctx burnMemMode includeBufferCache
      = Returns (limit, limit - usage + fileSum stat, None)).
Proof.
  intros Hlimit Hnz Husage Hstat Hpolicy.
  assert (Hresult : mem.getAvailableAndTotalV2 env ctx burnMemMode includeBufferCache
                    = Returns (limit, GoInt.wrap64 (limit - usage + fileSum stat), None)).
  { rewrite v2_tier_at_limit, Hlimit. apply Z.eqb_neq in Hnz. rewrite Hnz. cbn [negb orb].
    rewrite Husage, (memory_cache_is_file_sum env path stat Hstat).
    unfold includeReclaimableCache in Hpolicy. rewrite Hpolicy.
    now rewrite add64_sub64, wrap64_add_r. }
  split; [exact Hresult|].
  intros Hrange. rewrite Hresult. now rewrite wrap64_small.
Qed.

End TargetInUnifiedHierarchy.

Lemma unlimited_memory_max_reads_host_witness :
  mem.getAvailableAndTotalV2 Cases.unlimitedMemory (Sample.target (stringValue "")) "ram" false
  = Returns (8589934592, 3489660928, None).
Proof.
  rewrite (unlimited_memory_max_reads_host Cases.unlimitedMemory
             (Sample.target (stringValue "")) "1234" "" Sample.podDir 1234
             eq_refl eq_refl eq_refl eq_refl ltac:(discriminate) "ram" false "max
").
  - reflexivity.
  - reflexivity.
  - reflexivity.
Defined.

Lemma v2_memory_total_and_available_witness :
  mem.getAvailableAndTotalV2 Sample.scenarioMemory (Sample.target (stringValue "")) "ram" false
  = Returns (2147483648, 1178599424, None).
Proof.
  refine (proj2 (v2_memory_total_and_available Sample.scenarioMemory
                   (Sample.target (stringValue "")) "1234" "" Sample.podDir 1234
                   eq_refl eq_refl eq_refl eq_refl ltac:(discriminate)
                   "ram" false 2147483648 1073741824 "anon 937099264
file 104857600
file_mapped 4096
" _ _ _ _ _) _).
  - reflexivity.
  - discriminate.
  - reflexivity.
  - reflexivity.
  - reflexivity.
  - vm_compute. split; [discriminate|reflexivity].
Defined.

(** The returned pair is at hand in an equation: take its two figures from
    there and conclude by arithmetic. *)
Ltac returned_pair := intros [= <- <- _]; lia.

(** The host's figures. *)
Lemma getSystemMemory_sound (env : Env) (burnMemMode : string) (includeBufferCache : bool)
    (total available : Z) (err : option error) :
  hostConsistent env ->
  mem.getSystemMemory env burnMemMode includeBufferCache = (total, available, err) ->
  available <= total.
Proof.
  intros Hhost. unfold mem.getSystemMemory.
  destruct (VirtualMemory env) as [vm|e] eqn:Hvm.
  - destruct (Hhost vm Hvm) as (Hfree & Hbuf & Hcached & Hsum & Htotal).
    unfold GoInt.int64_of_uint64, GoInt.add64, GoInt.addU64.
    rewrite (Z.mod_small (Buffers vm + Cached vm)) by lia.
    rewrite (wrap64_small (Total vm)), (wrap64_small (Free vm)),
            (wrap64_small (Buffers vm + Cached vm)) by lia.
    destruct (String.eqb burnMemMode "ram" && negb includeBufferCache).
    + rewrite wrap64_small by lia. returned_pair.
    + returned_pair.
  - returned_pair.
Qed.

(** The cgroup v2 tier. *)
Lemma getAvailableAndTotalV2_sound (env : Env) (ctx : Context) (burnMemMode : string)
    (includeBufferCache : bool) (total available : Z) (err : option error) :
  hostConsistent env ->
  v2Consistent env ->
  mem.getAvailableAndTotalV2 env ctx burnMemMode includeBufferCache
  = Returns (total, available, err) ->
  available <= total.
Proof.
  intros Hhost Hv2. unfold mem.getAvailableAndTotalV2.
  assert (Hsys : Returns (mem.getSystemMemory env burnMemMode includeBufferCache)
                 = Returns (total, available, err) -> available <= total).
  { intros [= H]. exact (getSystemMemory_sound _ _ _ _ _ _ Hhost H). }
  destruct (ctx_ns_target ctx) as [|pidStr|n]; cbn [assertString bindOutcome];
    [exact Hsys| |discriminate].
  destruct (strconv.Atoi pidStr) as [p|e]; [|returned_pair].
  destruct (if isEmptyString (ctx_cgroup_root ctx)
            then stringValue "/sys/fs/cgroup" else ctx_cgroup_root ctx) as [|root|n];
    cbn [assertString bindOutcome]; [discriminate| |discriminate].
  destruct (cgroups.FindCGroupV2Path env (strconv.Itoa p) root) as [path [e|]];
    [exact Hsys|].
  destruct (String.eqb path ""); [exact Hsys|].
  destruct (cgroups.MemoryLimit env path) as [[limit defined] [e|]] eqn:Hlimit;
    [exact Hsys|].
  destruct defined; cbn [negb orb]; [|exact Hsys].
  destruct (limit =? 0); [exact Hsys|].
  destruct (mem.getCGroupV2MemoryUsage env path) as [usage [e|]] eqn:Husage;
    [exact Hsys|].
  destruct (Hv2 path limit usage Hlimit Husage) as (Hl & Hu & Hc).
  pose proof (MemoryLimit_range _ _ _ Hlimit) as Hlr.
  pose proof (MemoryUsage_range _ _ _ Husage) as Hur.
  assert (Hplain : GoInt.sub64 limit usage = limit - usage).
  { unfold GoInt.sub64. apply wrap64_small. lia. }
  destruct (String.eqb burnMemMode "ram" && negb includeBufferCache).
  - destruct (mem.getCGroupV2MemoryCache env path) as [cache [e|]] eqn:Hcache.
    + returned_pair.
    + specialize (Hc cache eq_refl).
      rewrite add64_sub64, wrap64_small by lia. returned_pair.
  - returned_pair.
Qed.

(** The cgroup v1 tier. *)
Lemma getAvailableAndTotalV1_sound (PageCounterMax : Z) (env : Env) (burnMemMode : string)
    (includeBufferCache : bool) (p : Z) (root : string)
    (total available : Z) (err : option error) :
  PageCounterMax <= 2 ^ 63 ->
  hostConsistent env ->
  v1Consistent env ->
  mem.getAvailableAndTotalV1 PageCounterMax env burnMemMode includeBufferCache p root
  = Returns (total, available, err) ->
  available <= total.
Proof.
  intros Hmax Hhost Hv1. unfold mem.getAvailableAndTotalV1.
  assert (Hsys : Returns (mem.getSystemMemory env burnMemMode includeBufferCache)
                 = Returns (total, available, err) -> available <= total).
  { intros [= H]. exact (getSystemMemory_sound _ _ _ _ _ _ Hhost H). }
  destruct (cgroupsLoad env root p); [returned_pair|].
  destruct (cgroupStat env root p) as [[stats|] [e|]] eqn:Hstat;
    try (returned_pair); [|exact Hsys].
  destruct (Memory stats) as [memory|] eqn:Hmem; [|discriminate].
  destruct (Hv1 root p stats memory Hstat Hmem) as (Hlimit & Hcache & Husage).
  destruct (Z.ltb_spec (Usage_Limit memory) PageCounterMax) as [Hlt|Hge]; [|exact Hsys].
  unfold GoInt.int64_of_uint64.
  rewrite (wrap64_small (Usage_Limit memory)), (wrap64_small (Usage_Usage memory)),
          (wrap64_small (Cache memory)) by lia.
  destruct (String.eqb burnMemMode "ram" && negb includeBufferCache).
  - rewrite add64_sub64, wrap64_small by lia. returned_pair.
  - unfold GoInt.sub64. rewrite wrap64_small by lia. returned_pair.
Qed.

(** C8, as the code has it.  The resolver clamps nothing, so
    [available <= total] is as true as the figures it reads: it holds for
    every pair returned -- by the cgroup v2 tier, the cgroup v1 tier or the
    host fallback -- when the sentinel of cgroup v1 is at most [2^63] and the
    figures agree with each other ([hostConsistent], [v1Consistent],
    [v2Consistent]). *)
Theorem available_at_most_total (PageCounterMax : Z) (env : Env) (ctx : Context)
    (burnMemMode : string) (includeBufferCache : bool)
    (total available : Z) (err : option error) :
  PageCounterMax <= 2 ^ 63 ->
  hostConsistent env ->
  v1Consistent env ->
  v2Consistent env ->
  mem.getAvailableAndTotal PageCounterMax env ctx burnMemMode includeBufferCache
  = Returns (total, available, err) ->
  available <= total.
Proof.
  intros Hmax Hhost Hv1 Hv2. unfold mem.getAvailableAndTotal.
  destruct (ctx_ns_target ctx) as [|pidStr|n] eqn:Hpid; cbn [assertString bindOutcome].
  - intros [= H]. exact (getSystemMemory_sound _ _ _ _ _ _ Hhost H).
  - destruct (strconv.Atoi pidStr) as [p|e]; [|returned_pair].
    destruct (if isEmptyString (ctx_cgroup_root ctx)
              then stringValue "/sys/fs/cgroup/" else ctx_cgroup_root ctx) as [|root|n];
      cbn [assertString bindOutcome]; [discriminate| |discriminate].
    destruct (cgroups.DetectCGroupVersion env root).
    + apply (getAvailableAndTotalV1_sound PageCounterMax); assumption.
    + apply getAvailableAndTotalV2_sound; assumption.
    + apply (getAvailableAndTotalV1_sound PageCounterMax); assumption.
  - discriminate.
Qed.

Lemma lookupFile_content (files : list (string * string)) (path content : string) :
  Sample.lookupFile files path = Some content -> In content (map snd files).
Proof.
  induction files as [|[name c] rest IH]; simpl; [discriminate|].
  destruct (String.eqb name path).
  - intros [= <-]. now left.
  - intros H. right. now apply IH.
Qed.

(** The figures of the sample scenario agree with each other. *)
Lemma scenarioMemory_consistent :
  hostConsistent Sample.scenarioMemory
  /\ v1Consistent Sample.scenarioMemory
  /\ v2Consistent Sample.scenarioMemory.
Proof.
  split; [|split].
  - intros vm [= <-]. cbn. lia.
  - intros root p stats memory Hstat. discriminate Hstat.
  - intros path limit usage Hlimit Husage.
    unfold cgroups.MemoryLimit in Hlimit.
    destruct (readFile Sample.scenarioMemory
                (filepath.Join [path; cgroups.CGroupV2MemoryLimitFile]))
      as [c|] eqn:Hc; [|discriminate].
    apply lookupFile_content in Hc.
    unfold mem.getCGroupV2MemoryUsage in Husage.
    destruct (readFile Sample.scenarioMemory (path ++ "/memory.current"))
      as [u|] eqn:Hu; [|discriminate].
    apply lookupFile_content in Hu.
    assert (Hcache : forall cache,
               mem.getCGroupV2MemoryCache Sample.scenarioMemory path = (cache, None) ->
               cache = 0 \/ cache = 104857600).
    { intros cache. unfold mem.getCGroupV2MemoryCache.
      destruct (readFile Sample.scenarioMemory (path ++ "/memory.stat"))
        as [s|] eqn:Hs; [|discriminate].
      apply lookupFile_content in Hs.
      destruct Hs as [<-|[<-|[<-|[<-|[]]]]]; vm_compute; intros [= <-]; auto. }
    destruct Hc as [<-|[<-|[<-|[<-|[]]]]]; vm_compute in Hlimit;
      try discriminate Hlimit; injection Hlimit as <-;
      (destruct Hu as [<-|[<-|[<-|[<-|[]]]]]; vm_compute in Husage;
       try discriminate Husage; injection Husage as <-;
       (split; [lia|]; split; [lia|];
        intros cache Hread; destruct (Hcache cache Hread) as [-> | ->]; lia)).
Qed.

Lemma available_at_most_total_witness :
  mem.getAvailableAndTotal Sample.PageCounterMax Sample.scenarioMemory
    (Sample.target (stringValue "")) "ram" false
  = Returns (2147483648, 1178599424, None)
  /\ 1178599424 <= 2147483648.
Proof.
  split; [vm_compute; reflexivity|].
  apply (available_at_most_total Sample.PageCounterMax Sample.scenarioMemory
           (Sample.target (stringValue "")) "ram" false 2147483648 1178599424 None).
  - vm_compute. discriminate.
  - apply scenarioMemory_consistent.
  - apply scenarioMemory_consistent.
  - apply scenarioMemory_consistent.
  - reflexivity.
Defined.

(** C8, the claim refuted.  With a limit of 1 GiB, 200 MiB in use and 300
    MiB of page cache on record, the cgroup v2 tier returns more memory
    available than there is in total. *)
Lemma available_can_exceed_total :
  mem.getAvailableAndTotal Sample.PageCounterMax Sample.cacheAboveUsage
    (Sample.target (stringValue "")) "ram" false
  = Returns (1073741824, 1178599424, None)
  /\ mem.getAvailableAndTotalV2 Sample.cacheAboveUsage
       (Sample.target (stringValue "")) "ram" false
     = Returns (1073741824, 1178599424, None)
  /\ 1073741824 < 1178599424.
Proof.
  repeat split; reflexivity.
Qed.

(** ** An unknown cgroup version *)

(** X4.  Detection reports Unknown exactly on the darwin build. *)
Lemma detection_unknown_iff_darwin (env : Env) (root : string) :
  cgroups.DetectCGroupVersion env root = cgroups.CGroupUnknown <-> goos env = darwin.
Proof.
  unfold cgroups.DetectCGroupVersion, cgroups.DetectCGroupVersion_darwin,
    cgroups.DetectCGroupVersion_linux.
  destruct (goos env).
  - split; [|discriminate].
    destruct (statOk env _); [discriminate|].
    destruct (match readFile env cgroups.mountInfoPath with
              | Some content => cgroups.scanFor _ (bufio.ScanLines content)
              | None => false
              end); [discriminate|].
    destruct (match readFile env cgroups.mountInfoPath with
              | Some content => cgroups.scanFor _ (bufio.ScanLines content)
              | None => false
              end); discriminate.
  - split; reflexivity.
Qed.




(** ** CPU usage *)

(** C7.  With [usage_usec] present (not zero) in both readings of
    [cpu.stat], taken one second apart, the cgroup v2 sampler returns the
    difference of the two [usage_usec] figures, as seconds of CPU time
    spent in that second, times 100 and divided by the core count it was
    given, all in [float64]. *)
Theorem v2_usage_is_usage_usec_delta (w : World) (t : nat) (cgroupPath : string)
    (cpuCount : Z) (first second : string) :
  readFile (w t) (filepath.Join [cgroupPath; "cpu.stat"]) = Some first ->
  readFile (w (S t)) (filepath.Join [cgroupPath; "cpu.stat"]) = Some second ->
  cpu.usageUsec (cpu.parseCPUStat first) <> 0 ->
  cpu.usageUsec (cpu.parseCPUStat second) <> 0 ->
  cpu.getCGroupV2CPUUsage w t cgroupPath cpuCount
  = ((PrimFloat.div
        (PrimFloat.mul
           (PrimFloat.div
              (GoInt.float64_of_int
                 (GoInt.sub64 (cpu.usageUsec (cpu.parseCPUStat second))
                              (cpu.usageUsec (cpu.parseCPUStat first))))
              1000000%float)
           100%float)
        (GoInt.float64_of_int cpuCount),
      None),
     S t).
Proof.
  intros Hfirst Hsecond Hnz1 Hnz2.
  unfold cpu.getCGroupV2CPUUsage. rewrite Hfirst, Hsecond.
  unfold cpu.totalUsec.
  apply Z.eqb_neq in Hnz1. apply Z.eqb_neq in Hnz2. rewrite Hnz1, Hnz2.
  reflexivity.
Qed.

Lemma v2_usage_is_usage_usec_delta_witness :
  cpu.usageUsec (cpu.parseCPUStat "usage_usec 1000000
user_usec 700000
system_usec 300000
") = 1000000
  /\ cpu.usageUsec (cpu.parseCPUStat "usage_usec 1500000
user_usec 700000
system_usec 300000
") = 1500000
  /\ cpu.getCGroupV2CPUUsage Sample.scenarioCPU 0 Sample.podDir 2
     = ((25%float, None), 1%nat)
  /\ cpu.getUsed Sample.scenarioCPU (Sample.target (stringValue "")) false 0
     = Returns 25%float.
Proof.
  split; [reflexivity|]. split; [reflexivity|]. split; [|reflexivity].
  rewrite (v2_usage_is_usage_usec_delta Sample.scenarioCPU 0 Sample.podDir 2
             "usage_usec 1000000
user_usec 700000
system_usec 300000
" "usage_usec 1500000
user_usec 700000
system_usec 300000
").
  - reflexivity.
  - reflexivity.
  - reflexivity.
  - vm_compute. discriminate.
  - vm_compute. discriminate.
Defined.

(** ** The cgroup root of a context *)

(** C9, the code at the failing input.  With a target process and no
    ["cgroup-root"] value in the context, the value read is nil, the test
    against the empty string fails, no default is put in its place, and the
    type assertion to string panics: in the memory resolver, in its cgroup
    v2 tier and in the usage sampler, on every host. *)
Theorem missing_cgroup_root_panics (PageCounterMax : Z) (env : Env) (w : World)
    (burnMemMode : string) (includeBufferCache percpu : bool) (cpuIndex : Z) :
  mem.getAvailableAndTotal PageCounterMax env (Sample.target nilValue)
    burnMemMode includeBufferCache = Panics
  /\ mem.getAvailableAndTotalV2 env (Sample.target nilValue)
       burnMemMode includeBufferCache = Panics
  /\ cpu.getUsed w (Sample.target nilValue) percpu cpuIndex = Panics.
Proof.
  repeat split; reflexivity.
Qed.

(** An empty ["cgroup-root"] is the case the code provides for: the cgroup
    v2 tier and the usage sampler then work as with [/sys/fs/cgroup]. *)
Lemma empty_cgroup_root_is_default (env : Env) (w : World) (pid cpuCount : any)
    (burnMemMode : string) (includeBufferCache percpu : bool) (cpuIndex : Z) :
  let given root :=
    {| ctx_ns_target := pid; ctx_cgroup_root := stringValue root; ctx_cpuCount := cpuCount |} in
  mem.getAvailableAndTotalV2 env (given "") burnMemMode includeBufferCache
  = mem.getAvailableAndTotalV2 env (given "/sys/fs/cgroup") burnMemMode includeBufferCache
  /\ cpu.getUsed w (given "") percpu cpuIndex
     = cpu.getUsed w (given "/sys/fs/cgroup") percpu cpuIndex.
Proof.
  split; reflexivity.
Qed.

(** ** The index of a core *)

Lemma getUsed_whole_host (w : World) (ctx : Context) (percpu : bool) (cpuIndex cpuCount : Z) :
  ctx_ns_target ctx = nilValue ->
  ctx_cpuCount ctx = intValue cpuCount ->
  cpu.getUsed w ctx percpu cpuIndex = cpu.getUsedHost (w O) percpu cpuIndex.
Proof.
  intros Hpid Hcount. unfold cpu.getUsed. now rewrite Hpid, Hcount.
Qed.

(** C10, as the code has it.  In per-core mode on the host, with [n]
    results: the guard ends the process exactly for an index above [n]; the
    indexing panics exactly for the index [n] and for the negative indices,
    which all pass the guard; every other index yields its result. *)
Theorem per_core_index_guard (w : World) (ctx : Context) (cpuIndex cpuCount : Z)
    (totalCpuPercent : list float) :
  ctx_ns_target ctx = nilValue ->
  ctx_cpuCount ctx = intValue cpuCount ->
  cpuPercent (w O) true = (totalCpuPercent, None) ->
  let n := Z.of_nat (List.length totalCpuPercent) in
  (cpu.getUsed w ctx true cpuIndex = Exits <-> n < cpuIndex)
  /\ (cpu.getUsed w ctx true cpuIndex = Panics <-> cpuIndex = n \/ cpuIndex < 0)
  /\ (0 <= cpuIndex < n ->
      cpu.getUsed w ctx true cpuIndex
      = Returns (nth (Z.to_nat cpuIndex) totalCpuPercent 0%float)).
Proof.
  intros Hpid Hcount Hpercent n.
  rewrite (getUsed_whole_host w ctx true cpuIndex cpuCount Hpid Hcount).
  unfold cpu.getUsedHost, cpu.index. rewrite Hpercent. fold n.
  destruct (Z.ltb_spec n cpuIndex) as [Habove|Hnot].
  - repeat split; try tauto; try discriminate; lia.
  - destruct (Z.leb_spec 0 cpuIndex) as [Hnonneg|Hneg];
      destruct (Z.ltb_spec cpuIndex n) as [Hin|Hout]; cbn [andb];
      repeat split; try tauto; try discriminate; try lia; intros; exfalso; lia.
Qed.

Lemma per_core_index_guard_witness :
  cpu.getUsed Sample.scenarioCPU Sample.wholeHost true 2 = Panics.
Proof.
  apply (per_core_index_guard Sample.scenarioCPU Sample.wholeHost 2 2
           [12.5%float; 50%float] eq_refl eq_refl eq_refl).
  left. reflexivity.
Defined.

(** C10, the claim refuted.  With two per-core results the index [-1] is
    not above their number, so the guard lets it through, and it is not
    their number either; yet indexing with it panics. *)
Lemma negative_core_index_passes_guard :
  (Z.of_nat (List.length [12.5%float; 50%float]) <? -1) = false
  /\ -1 <> Z.of_nat (List.length [12.5%float; 50%float])
  /\ cpu.getUsed Sample.scenarioCPU Sample.wholeHost true (-1) = Panics
  /\ cpu.getUsed Sample.scenarioCPU Sample.wholeHost true 2 = Panics
  /\ cpu.getUsed Sample.scenarioCPU Sample.wholeHost true 3 = Exits.
Proof.
  repeat split; try reflexivity. discriminate.
Qed.

(** * Further properties *)

(** ** Version detection, continued *)

(** X5.  [IsCGroupV2] answers true exactly on a linux build on which the marker
    file [<root>/cgroup.controllers] can be stat'ed or the mount table has
    an entry whose seventh field is [cgroup2] and whose fifth field starts
    with the root; an empty root stands for [/sys/fs/cgroup].  On a darwin
    build it answers false. *)
Lemma IsCGroupV2_iff_marker_or_mount (env : Env) (cgroupRoot : string) :
  let root := cgroups.defaultRoot cgroupRoot in
  cgroups.IsCGroupV2 env cgroupRoot = true
  <-> goos env = linux
      /\ (statOk env (filepath.Join [root; "cgroup.controllers"]) = true
          \/ exists entry, In entry (mountEntries env)
                           /\ hasType "cgroup2" entry /\ mountedUnder root entry).
Proof.
  intros root.
  pose proof (scan_finds_entry env (cgroups.isCGroupV2Mount root)
                (fun e => hasType "cgroup2" e /\ mountedUnder root e)
                (isCGroupV2Mount_spec root)) as Hv2.
  unfold cgroups.IsCGroupV2, cgroups.DetectCGroupVersion,
    cgroups.DetectCGroupVersion_darwin, cgroups.DetectCGroupVersion_linux.
  fold root.
  destruct (goos env).
  - destruct (statOk env (filepath.Join [root; "cgroup.controllers"])).
    + split; auto.
    + destruct (match readFile env cgroups.mountInfoPath with
                | Some content =>
                  cgroups.scanFor (cgroups.isCGroupV2Mount root) (bufio.ScanLines content)
                | None => false
                end) eqn:Hscan.
      * split; [|reflexivity]. intros _. split; [reflexivity|]. right. now apply Hv2.
      * split.
        -- now destruct (match readFile env cgroups.mountInfoPath with
                         | Some content =>
                           cgroups.scanFor cgroups.isCGroupV1Mount (bufio.ScanLines content)
                         | None => false
                         end).
        -- intros [_ [Hmarker|Hmount]]; [discriminate|].
           apply Hv2 in Hmount. discriminate.
  - split; [discriminate|]. intros [Hos _]. discriminate.
Qed.

(** ** The control group of a process *)

Lemma splitAt_zero (sep : ascii) (s : string) : strings.splitAt sep 0 s = (s, []).
Proof.
  induction s as [|c r IH]; [reflexivity|]. cbn [strings.splitAt]. now rewrite IH.
Qed.

Lemma Join_cons_head (c : ascii) (w : string) (ws : list string) (sep : string) :
  strings.Join (String c w :: ws) sep = String c (strings.Join (w :: ws) sep).
Proof.
  destruct ws as [|w' ws]; reflexivity.
Qed.

(** The pieces of a split, joined by the separator, are the string. *)
Lemma Join_splitAt (sep : ascii) (n : nat) (s : string) :
  strings.Join (fst (strings.splitAt sep n s) :: snd (strings.splitAt sep n s))
    (String sep "") = s.
Proof.
  revert n. induction s as [|c r IH]; intros n; [reflexivity|].
  cbn [strings.splitAt]. destruct n as [|k].
  - specialize (IH 0%nat). destruct (strings.splitAt sep 0 r) as [w ws].
    cbn [fst snd] in *. now rewrite Join_cons_head, IH.
  - destruct (Ascii.eqb_spec c sep) as [->|Hne].
    + specialize (IH k). destruct (strings.splitAt sep k r) as [w ws].
      cbn [fst snd] in *.
      change (strings.Join (EmptyString :: w :: ws) (String sep ""))
        with (String sep (strings.Join (w :: ws) (String sep ""))).
      now rewrite IH.
    + specialize (IH (S k)). destruct (strings.splitAt sep (S k) r) as [w ws].
      cbn [fst snd] in *. now rewrite Join_cons_head, IH.
Qed.

Lemma SplitN_unified (line part2 : string) :
  strings.SplitN line ":" 3 = ["0"; ""; part2] -> line = "0::" ++ part2.
Proof.
  intros Hsplit. rewrite <- (Join_splitAt ":" 2 line).
  unfold strings.SplitN in Hsplit. cbn [Nat.pred] in Hsplit.
  destruct (strings.splitAt ":" 2 line) as [w ws].
  injection Hsplit as -> ->. reflexivity.
Qed.

Lemma findUnifiedLine_skip (root line : string) (rest : list string) :
  strings.HasPrefix line "0::" = false ->
  cgroups.findUnifiedLine root (line :: rest) = cgroups.findUnifiedLine root rest.
Proof.
  intros Hpre. cbn [cgroups.findUnifiedLine].
  destruct (String.eqb line ""); [reflexivity|].
  destruct (strings.SplitN line ":" 3) as [|p0 [|p1 [|p2 [|p3 more]]]] eqn:Hsplit;
    try reflexivity.
  destruct (String.eqb_spec p0 "0") as [->|]; [|reflexivity].
  destruct (String.eqb_spec p1 "") as [->|]; [|reflexivity].
  apply SplitN_unified in Hsplit. subst line.
  unfold strings.HasPrefix in Hpre. cbn in Hpre.
  destruct p2; discriminate Hpre.
Qed.

Lemma findUnifiedLine_found (root group : string) (rest : list string) :
  cgroups.findUnifiedLine root (("0::" ++ group) :: rest)
  = Some (filepath.Join [root; group]).
Proof.
  cbn [cgroups.findUnifiedLine append]. unfold strings.SplitN.
  cbn [Nat.pred strings.splitAt String.eqb].
  change (Ascii.eqb "0" ":") with false. change (Ascii.eqb ":" ":") with true.
  cbv iota. rewrite splitAt_zero. reflexivity.
Qed.

Lemma Clean_nonempty (path : string) : filepath.Clean path <> "".
Proof.
  unfold filepath.Clean. destruct (filepath.isRooted path); [discriminate|].
  destruct (String.eqb_spec
              (strings.Join
                 (rev (fold_left (filepath.cleanStep false) (strings.Split path "/") [])) "/")
              ""); [discriminate|assumption].
Qed.

Lemma defaultRoot_nonempty (cgroupRoot : string) : cgroups.defaultRoot cgroupRoot <> "".
Proof.
  unfold cgroups.defaultRoot. destruct (String.eqb_spec cgroupRoot ""); [discriminate|assumption].
Qed.

Lemma Join_under_root_nonempty (root group : string) :
  root <> "" -> filepath.Join [root; group] <> "".
Proof.
  intros Hroot. cbn [filepath.Join].
  apply String.eqb_neq in Hroot. rewrite Hroot. apply Clean_nonempty.
Qed.

(** X6.  [FindCGroupV2Path] over a readable [/proc/<pid>/cgroup]: the first line
    that starts with [0::] decides.  Its remainder, joined to the root (an
    empty root stands for [/sys/fs/cgroup]) and cleaned, is the directory
    returned, and that is never the empty string; lines before it, the
    cgroup v1 hierarchies, are passed over.  Without such a line the result
    is the empty string with a nil error.  So a caller's test for the empty
    string is the test for "no line [0::...]". *)
Theorem unified_line_decides_path (env : Env) (pid cgroupRoot content : string) :
  readFile env (filepath.Join ["/proc"; pid; "cgroup"]) = Some content ->
  let root := cgroups.defaultRoot cgroupRoot in
  let lines := strings.Split content "010" in
  ((forall line, In line lines -> strings.HasPrefix line "0::" = false) ->
   cgroups.FindCGroupV2Path env pid cgroupRoot = ("", None))
  /\ (forall (before : list string) (group : string) (after : list string),
        lines = (before ++ ("0::" ++ group)%string :: after)%list ->
        (forall line, In line before -> strings.HasPrefix line "0::" = false) ->
        cgroups.FindCGroupV2Path env pid cgroupRoot = (filepath.Join [root; group], None)
        /\ filepath.Join [root; group] <> "").
Proof.
  intros Hread root lines.
  assert (Hskip : forall before rest : list string,
             (forall line, In line before -> strings.HasPrefix line "0::" = false) ->
             cgroups.findUnifiedLine root (before ++ rest)%list
             = cgroups.findUnifiedLine root rest).
  { induction before as [|line before IH]; intros rest Hnone; [reflexivity|].
    cbn [app]. rewrite findUnifiedLine_skip by (apply Hnone; now left).
    apply IH. intros l Hl. apply Hnone. now right. }
  unfold cgroups.FindCGroupV2Path. fold root. rewrite Hread. fold lines. split.
  - intros Hnone. rewrite <- (app_nil_r lines), (Hskip lines [] Hnone). reflexivity.
  - intros before group after Hlines Hnone.
    rewrite Hlines, (Hskip before _ Hnone), findUnifiedLine_found.
    split; [reflexivity|]. apply Join_under_root_nonempty, defaultRoot_nonempty.
Qed.

Lemma unified_line_decides_path_witness :
  cgroups.FindCGroupV2Path Cases.hybridTarget "1234" ""
  = ("/sys/fs/cgroup/kubepods/pod1", None).
Proof.
  refine (proj1 (proj2 (unified_line_decides_path Cases.hybridTarget "1234" ""
                          Cases.hybridProcCgroup eq_refl)
                   ["12:cpu,cpuacct:/kubepods/pod1"; "1:name=systemd:/kubepods/pod1"]
                   "/kubepods/pod1" [""] eq_refl _)).
  intros line [<-|[<-|[]]]; reflexivity.
Defined.

(** ** The CPU count of a control group *)

(** What the resolution can return: [-1] with status Undefined, the minimum
    with status MinUsed, or the rounded ratio with status Used, which a
    positive minimum bounds from below. *)
Lemma resolution_outcomes (DefaultRoundFunc : float -> Z) (env : Env)
    (root pid : string) (minValue : Z) (round : option (float -> Z)) :
  let r := runtime.GetCPUQuotaToCPUCntByPidForCgroups2
             DefaultRoundFunc env root pid minValue round in
  (exists err, r = (-1, CPUQuotaUndefined, err))
  \/ (r = (minValue, CPUQuotaMinUsed, None) /\ 0 < minValue)
  \/ (exists n, r = (n, CPUQuotaUsed, None) /\ (0 < minValue -> minValue <= n)).
Proof.
  unfold runtime.GetCPUQuotaToCPUCntByPidForCgroups2.
  destruct (cgroups.FindCGroupV2Path env pid root) as [path [e|]]; [left; eauto|].
  destruct (String.eqb path ""); [left; eauto|].
  destruct (cgroups.CPUQuota env path) as [[quota defined] [e|]]; [left; eauto|].
  destruct defined; cbn [negb]; [|left; eauto].
  destruct (Z.ltb_spec 0 minValue) as [Hmin|Hmin]; cbn [andb].
  - match goal with |- context [?n <? minValue] => destruct (Z.ltb_spec n minValue) end.
    + right. left. split; [reflexivity|assumption].
    + right. right. eexists. split; [reflexivity|]. intros _. assumption.
  - right. right. eexists. split; [reflexivity|]. intros Hpos. lia.
Qed.

(** X7.  [GetCPUCntByPidForCgroups2] never answers less than one CPU on a host
    that has one: whatever the files of the control group hold, the count is
    the host's or the rounded quota with one as its floor.  When it returns
    an error, the count beside it is the host's. *)
Theorem v2_cpu_count_is_positive (DefaultRoundFunc : float -> Z) (env : Env)
    (root pid : string) :
  1 <= NumCPU env ->
  let r := automaxprocs.GetCPUCntByPidForCgroups2 DefaultRoundFunc env root pid in
  1 <= fst r /\ (snd r <> None -> fst r = NumCPU env).
Proof.
  intros Hhost. unfold automaxprocs.GetCPUCntByPidForCgroups2.
  destruct (resolution_outcomes DefaultRoundFunc env root pid 1 (Some DefaultRoundFunc))
    as [[err ->]|[[-> _]|[n [-> Hfloor]]]].
  - destruct err; cbn; split; auto.
  - cbn. split; [lia|]. intros Herr. now contradiction Herr.
  - cbn. split; [apply Hfloor; lia|]. intros Herr. now contradiction Herr.
Qed.

Lemma v2_cpu_count_is_positive_witness :
  1 <= fst (automaxprocs.GetCPUCntByPidForCgroups2 Sample.floor
              (Sample.cpuMax "50000 100000
") "" "1234").
Proof.
  refine (proj1 (v2_cpu_count_is_positive Sample.floor (Sample.cpuMax "50000 100000
") "" "1234" _)).
  vm_compute. discriminate.
Defined.

(** X8.  Every failure to read or to parse [cpu.max] reaches the caller of
    [GetCPUCntByPidForCgroups2] as an error, with the host's CPU count
    beside it: the file cannot be read, or it has two fields of which the
    quota (not [max]) or, after a quota that parses, the period is no
    [int64] in decimal. *)
Theorem cpu_max_errors_reach_the_caller (DefaultRoundFunc : float -> Z) (env : Env)
    (root pid path : string) :
  cgroups.FindCGroupV2Path env pid root = (path, None) ->
  path <> "" ->
  (readFile env (filepath.Join [path; "cpu.max"]) = None ->
   automaxprocs.GetCPUCntByPidForCgroups2 DefaultRoundFunc env root pid
   = (NumCPU env, Some (ErrReadFile (filepath.Join [path; "cpu.max"]))))
  /\ (forall content part0 part1 err,
        readFile env (filepath.Join [path; "cpu.max"]) = Some content ->
        strings.Fields (strings.TrimSpace content) = [part0; part1] ->
        part0 <> "max" ->
        (strconv.ParseInt part0 = inr err
         \/ exists quota, strconv.ParseInt part0 = inl quota
                          /\ strconv.ParseInt part1 = inr err) ->
        automaxprocs.GetCPUCntByPidForCgroups2 DefaultRoundFunc env root pid
        = (NumCPU env, Some err)).
Proof.
  intros Hfound Hnamed. split.
  - intros Hread. unfold automaxprocs.GetCPUCntByPidForCgroups2,
      runtime.GetCPUQuotaToCPUCntByPidForCgroups2.
    rewrite Hfound. apply String.eqb_neq in Hnamed. rewrite Hnamed.
    unfold cgroups.CPUQuota, cgroups.CGroupV2CPUQuotaFile. rewrite Hread. reflexivity.
  - intros content part0 part1 err Hread Hfields Hmax Hparse.
    unfold automaxprocs.GetCPUCntByPidForCgroups2.
    rewrite (resolution_at_path DefaultRoundFunc env root pid path Hfound Hnamed).
    rewrite (CPUQuota_of_fields env path content Hread), Hfields.
    apply String.eqb_neq in Hmax. rewrite Hmax.
    destruct Hparse as [Hq|[quota [Hq Hp]]].
    + rewrite Hq. reflexivity.
    + rewrite Hq, Hp. reflexivity.
Qed.

Lemma cpu_max_errors_reach_the_caller_witness :
  automaxprocs.GetCPUCntByPidForCgroups2 Sample.floor Cases.noCpuMax "" "1234"
  = (8, Some (ErrReadFile "/sys/fs/cgroup/kubepods/pod1/cpu.max")).
Proof.
  refine (proj1 (cpu_max_errors_reach_the_caller Sample.floor Cases.noCpuMax "" "1234"
                   Sample.podDir _ _) _).
  - reflexivity.
  - discriminate.
  - reflexivity.
Defined.

(** ** Memory figures of a control group *)

Lemma spaceWidth_printable (c : ascii) (r : string) :
  (33 <= strings.byte c <= 127)%N -> strings.spaceWidth (String c r) = 0%nat.
Proof.
  intros [Hlo Hhi].
  unfold strings.spaceWidth, strings.asciiSpace. cbv zeta.
  replace (strings.byte c <=? 13)%N with false by (symmetry; apply N.leb_gt; lia).
  replace (strings.byte c =? 32)%N with false by (symmetry; apply N.eqb_neq; lia).
  rewrite andb_false_r. cbn [orb].
  destruct r as [|c1 r1]; [reflexivity|].
  replace (strings.byte c =? 194)%N with false by (symmetry; apply N.eqb_neq; lia).
  cbn [andb].
  destruct r1 as [|c2 r2]; [reflexivity|].
  replace (strings.byte c =? 225)%N with false by (symmetry; apply N.eqb_neq; lia).
  replace (strings.byte c =? 226)%N with false by (symmetry; apply N.eqb_neq; lia).
  replace (strings.byte c =? 227)%N with false by (symmetry; apply N.eqb_neq; lia).
  reflexivity.
Qed.

(** White space after a run of digits is trimmed, the digits stay. *)
Lemma TrimSpace_digits (a eol : string) :
  allDigits a = true -> a <> "" -> strings.allSpace eol = true ->
  strings.TrimSpace (a ++ eol) = a.
Proof.
  intros Ha Hne Heol. unfold strings.TrimSpace.
  assert (Hhead : strings.trimLeftSpace 0 (a ++ eol) = a ++ eol).
  { destruct a as [|c a]; [now contradiction Hne|].
    cbn [allDigits] in Ha. destruct (strconv.digit c) eqn:Hc; [|discriminate].
    cbn [append]. rewrite trimLeftSpace_step, spaceWidth_digit by (rewrite Hc; discriminate).
    reflexivity. }
  rewrite Hhead, (trimRightSpace_digits a eol Ha).
  destruct eol as [|c r]; [apply append_empty_r|].
  cbn [strings.trimRightSpace]. rewrite Heol. apply append_empty_r.
Qed.

Lemma Itoa_digits (n : Z) :
  0 <= n -> allDigits (strconv.Itoa n) = true /\ strconv.Itoa n <> "".
Proof.
  intros Hn. destruct (Z.eq_dec n 0) as [->|Hnz].
  - split; [reflexivity|discriminate].
  - split; [apply Itoa_allDigits|apply Itoa_nonempty]; lia.
Qed.

Lemma ParseInt_Itoa_nonneg (n : Z) :
  0 <= n < 2 ^ 63 -> strconv.ParseInt (strconv.Itoa n) = inl n.
Proof.
  intros Hn. destruct (Z.eq_dec n 0) as [->|Hnz]; [reflexivity|].
  apply ParseInt_Itoa. lia.
Qed.

(** X9.  The figures the kernel writes are read back exactly: a [memory.max] and
    a [memory.current] that hold a number below [2^63] in decimal, followed
    by white space (the line feed), give that number as the limit, which is
    defined, and as the usage, without an error. *)
Theorem decimal_memory_figures_are_read_back (env : Env) (path eol1 eol2 : string)
    (limit usage : Z) :
  0 <= limit < 2 ^ 63 ->
  0 <= usage < 2 ^ 63 ->
  strings.allSpace eol1 = true ->
  strings.allSpace eol2 = true ->
  readFile env (filepath.Join [path; "memory.max"]) = Some (strconv.Itoa limit ++ eol1) ->
  readFile env (path ++ "/memory.current") = Some (strconv.Itoa usage ++ eol2) ->
  cgroups.MemoryLimit env path = (limit, true, None)
  /\ mem.getCGroupV2MemoryUsage env path = (usage, None).
Proof.
  intros Hlimit Husage Heol1 Heol2 Hmax Hcurrent.
  destruct (Itoa_digits limit ltac:(lia)) as [Hld Hlne].
  destruct (Itoa_digits usage ltac:(lia)) as [Hud Hune].
  split.
  - unfold cgroups.MemoryLimit, cgroups.CGroupV2MemoryLimitFile. rewrite Hmax.
    rewrite (TrimSpace_digits _ _ Hld Hlne Heol1).
    rewrite (ParseInt_not_max _ _ (ParseInt_Itoa_nonneg limit Hlimit)).
    now rewrite (ParseInt_Itoa_nonneg limit Hlimit).
  - unfold mem.getCGroupV2MemoryUsage. rewrite Hcurrent.
    rewrite (TrimSpace_digits _ _ Hud Hune Heol2).
    now rewrite (ParseInt_Itoa_nonneg usage Husage).
Qed.

Lemma decimal_memory_figures_are_read_back_witness :
  cgroups.MemoryLimit Sample.scenarioMemory Sample.podDir = (2147483648, true, None)
  /\ mem.getCGroupV2MemoryUsage Sample.scenarioMemory Sample.podDir = (1073741824, None).
Proof.
  apply (decimal_memory_figures_are_read_back Sample.scenarioMemory Sample.podDir "
" "
" 2147483648 1073741824).
  - lia.
  - lia.
  - reflexivity.
  - reflexivity.
  - reflexivity.
  - reflexivity.
Defined.

Lemma addFileLine_other (cache : Z) (line : string) :
  strings.HasPrefix line "file " = false -> mem.addFileLine cache line = cache.
Proof.
  intros Hpre. unfold mem.addFileLine. now rewrite Hpre.
Qed.

Lemma fold_addFileLine_others (lines : list string) (cache : Z) :
  (forall line, In line lines -> strings.HasPrefix line "file " = false) ->
  fold_left mem.addFileLine lines cache = cache.
Proof.
  revert cache. induction lines as [|line rest IH]; intros cache Hnone; [reflexivity|].
  cbn [fold_left]. rewrite addFileLine_other by (apply Hnone; now left).
  apply IH. intros l Hl. apply Hnone. now right.
Qed.

Lemma Fields_file_entry (d : string) :
  allDigits d = true -> d <> "" -> strings.Fields ("file " ++ d) = ["file"; d].
Proof.
  intros Hd Hne. unfold strings.Fields.
  change ("file " ++ d) with (String "f" (String "i" (String "l" (String "e" (String " " d))))).
  rewrite splitFields_step, spaceWidth_printable by (vm_compute; split; discriminate).
  rewrite splitFields_step, spaceWidth_printable by (vm_compute; split; discriminate).
  rewrite splitFields_step, spaceWidth_printable by (vm_compute; split; discriminate).
  rewrite splitFields_step, spaceWidth_printable by (vm_compute; split; discriminate).
  rewrite splitFields_step. change (strings.spaceWidth (String " " d)) with 1%nat. cbv iota.
  rewrite <- (append_empty_r d) at 1. rewrite (splitFields_digits d "" Hd).
  cbn [strings.splitFields fst snd]. rewrite append_empty_r.
  destruct d as [|c d]; [now contradiction Hne|]. reflexivity.
Qed.

(** X10.  The page cache of a control group is the figure of the [file] entry of
    its [memory.stat]: with one line [file <n>] (a positive [int64] in
    decimal) among lines that do not start with ["file "], the result is
    [n] without an error.  Entries such as [file_mapped] or [file_dirty]
    add nothing. *)
Theorem memory_cache_is_file_entry (env : Env) (path content : string)
    (before after : list string) (n : Z) :
  readFile env (path ++ "/memory.stat") = Some content ->
  strings.Split content "010"
  = (before ++ ("file " ++ strconv.Itoa n)%string :: after)%list ->
  (forall line, In line (before ++ after)%list -> strings.HasPrefix line "file " = false) ->
  0 < n < 2 ^ 63 ->
  mem.getCGroupV2MemoryCache env path = (n, None).
Proof.
  intros Hread Hlines Hothers Hn.
  unfold mem.getCGroupV2MemoryCache. rewrite Hread, Hlines.
  rewrite fold_left_app.
  rewrite (fold_addFileLine_others before 0)
    by (intros l Hl; apply Hothers, in_or_app; now left).
  cbn [fold_left].
  rewrite (fold_addFileLine_others after)
    by (intros l Hl; apply Hothers, in_or_app; now right).
  unfold mem.addFileLine.
  assert (Hprefix : strings.HasPrefix ("file " ++ strconv.Itoa n) "file " = true).
  { unfold strings.HasPrefix. cbn. now destruct (strconv.Itoa n). }
  rewrite Hprefix.
  rewrite Fields_file_entry by (apply Itoa_digits; lia).
  rewrite (ParseInt_Itoa n Hn). unfold GoInt.add64. cbn [Z.add].
  now rewrite wrap64_small by lia.
Qed.

Lemma memory_cache_is_file_entry_witness :
  mem.getCGroupV2MemoryCache Cases.withMemoryStat Sample.podDir = (104857600, None).
Proof.
  apply (memory_cache_is_file_entry Cases.withMemoryStat Sample.podDir Cases.memoryStat
           ["anon 937099264"] ["kernel 2097152"; "file_mapped 4096"; "file_dirty 8192"; ""]).
  - reflexivity.
  - reflexivity.
  - intros line [<-|[<-|[<-|[<-|[<-|[]]]]]]; reflexivity.
  - lia.
Defined.

(** X11.  The cgroup v2 tier of the memory resolver cannot fail while the host's
    figures can be read: for a context without a target process, or with a
    target that is a number in decimal and a cgroup root that is a string,
    it returns a total and an available figure with a nil error, whatever
    the files of the control group are or hold.  The total is the host's or
    a defined, non-zero limit read from a [memory.max]. *)
Theorem v2_memory_tier_never_fails (env : Env) (ctx : Context)
    (burnMemMode : string) (includeBufferCache : bool) (vm : VirtualMemoryStat) :
  VirtualMemory env = inl vm ->
  (ctx_ns_target ctx = nilValue
   \/ exists pidStr p root,
        ctx_ns_target ctx = stringValue pidStr
        /\ strconv.Atoi pidStr = inl p
        /\ ctx_cgroup_root ctx = stringValue root) ->
  exists total available,
    mem.getAvailableAndTotalV2 env ctx burnMemMode includeBufferCache
    = Returns (total, available, None)
    /\ (total = GoInt.int64_of_uint64 (Total vm)
        \/ total <> 0
           /\ exists path, cgroups.MemoryLimit env path = (total, true, None)).
Proof.
  intros Hvm Hctx.
  assert (Hhost : exists available,
             mem.getSystemMemory env burnMemMode includeBufferCache
             = (GoInt.int64_of_uint64 (Total vm), available, None)).
  { unfold mem.getSystemMemory. rewrite Hvm. eexists. reflexivity. }
  destruct Hhost as [hostAvailable Hhost].
  assert (Hfallback : exists total available,
             Returns (mem.getSystemMemory env burnMemMode includeBufferCache)
             = Returns (total, available, None)
             /\ (total = GoInt.int64_of_uint64 (Total vm)
                 \/ total <> 0
                    /\ exists path, cgroups.MemoryLimit env path = (total, true, None))).
  { rewrite Hhost. eexists. eexists. split; [reflexivity|]. now left. }
  unfold mem.getAvailableAndTotalV2.
  destruct Hctx as [Hpid|(pidStr & p & root & Hpid & Hatoi & Hroot)]; rewrite Hpid.
  - exact Hfallback.
  - cbn [assertString bindOutcome]. rewrite Hatoi, Hroot. cbn [isEmptyString].
    destruct (String.eqb root ""); cbn [assertString bindOutcome].
    all: match goal with
         | |- context [cgroups.FindCGroupV2Path ?e ?a ?b] =>
           destruct (cgroups.FindCGroupV2Path e a b) as [path [err|]]
         end; [exact Hfallback|].
    all: destruct (String.eqb path ""); [exact Hfallback|].
    all: match goal with
         | |- context [cgroups.MemoryLimit ?e ?a] =>
           destruct (cgroups.MemoryLimit e a) as [[limit defined] [err|]] eqn:Hlimit
         end; [exact Hfallback|].
    all: destruct defined; cbn [negb orb]; [|exact Hfallback].
    all: match goal with
         | |- context [?l =? 0] => destruct (Z.eqb_spec l 0) as [Hz|Hnz]
         end; [exact Hfallback|].
    all: match goal with
         | |- context [mem.getCGroupV2MemoryUsage ?e ?a] =>
           destruct (mem.getCGroupV2MemoryUsage e a) as [usage [err|]]
         end; [exact Hfallback|].
    all: eexists; eexists; split; [reflexivity|]; right; split; [assumption|];
      eexists; eassumption.
Qed.

Lemma v2_memory_tier_never_fails_witness :
  exists total available,
    mem.getAvailableAndTotalV2 Sample.scenarioMemory (Sample.target (stringValue "")) "ram" false
    = Returns (total, available, None)
    /\ (total = GoInt.int64_of_uint64 (Total Sample.hostMemory)
        \/ total <> 0
           /\ exists path,
                cgroups.MemoryLimit Sample.scenarioMemory path = (total, true, None)).
Proof.
  apply (v2_memory_tier_never_fails Sample.scenarioMemory (Sample.target (stringValue ""))
           "ram" false Sample.hostMemory).
  - reflexivity.
  - right. exists "1234", 1234, "". repeat split; reflexivity.
Defined.

(** ** CPU usage, continued *)

(** A division by the [float64] zero gives no finite number. *)
Lemma div_by_zero_not_finite (x : float) :
  let q := PrimFloat.div x (GoInt.float64_of_int 0) in
  Prim2SF q = S754_nan \/ exists sign, Prim2SF q = S754_infinity sign.
Proof.
  cbv zeta. rewrite FloatAxioms.div_spec.
  change (Prim2SF (GoInt.float64_of_int 0)) with (S754_zero false).
  destruct (Prim2SF x) as [sx|sx| |sx mx ex]; cbn [SF64div SFdiv]; eauto.
Qed.

(** X12.  A core count of zero is not refused by the cgroup v2 sampler: with
    both readings of [cpu.stat] at hand it returns, after its second of
    waiting and with a nil error, a usage that is no finite number -- an
    infinity or a NaN of [float64]. *)
Theorem zero_core_count_gives_no_finite_usage (w : World) (t : nat)
    (cgroupPath first second : string) :
  readFile (w t) (filepath.Join [cgroupPath; "cpu.stat"]) = Some first ->
  readFile (w (S t)) (filepath.Join [cgroupPath; "cpu.stat"]) = Some second ->
  exists usage,
    cpu.getCGroupV2CPUUsage w t cgroupPath 0 = ((usage, None), S t)
    /\ (Prim2SF usage = S754_nan \/ exists sign, Prim2SF usage = S754_infinity sign).
Proof.
  intros Hfirst Hsecond. unfold cpu.getCGroupV2CPUUsage. rewrite Hfirst, Hsecond.
  eexists. split; [reflexivity|]. apply div_by_zero_not_finite.
Qed.

Lemma zero_core_count_gives_no_finite_usage_witness :
  exists usage,
    cpu.getCGroupV2CPUUsage Sample.scenarioCPU 0 Sample.podDir 0 = ((usage, None), 1%nat)
    /\ (Prim2SF usage = S754_nan \/ exists sign, Prim2SF usage = S754_infinity sign).
Proof.
  apply (zero_core_count_gives_no_finite_usage Sample.scenarioCPU 0 Sample.podDir
           "usage_usec 1000000
user_usec 700000
system_usec 300000
" "usage_usec 1500000
user_usec 700000
system_usec 300000
"); reflexivity.
Defined.

(** *** The lines of [cpu.stat] *)

Lemma visible_head (c : ascii) (r : string) :
  visible (String c r) = true -> (33 <= strings.byte c <= 127)%N /\ visible r = true.
Proof.
  cbn [visible]. intros H. apply andb_true_iff in H. destruct H as [Hc Hr].
  apply andb_true_iff in Hc. destruct Hc as [Hlo Hhi].
  apply N.leb_le in Hlo. apply N.leb_le in Hhi. split; [lia|assumption].
Qed.

Lemma allDigits_visible (d : string) : allDigits d = true -> visible d = true.
Proof.
  induction d as [|c r IH]; [reflexivity|]. cbn [allDigits visible]. unfold strconv.digit.
  destruct ((48 <=? strings.byte c) && (strings.byte c <=? 57))%N eqn:E; [|discriminate].
  intros Hr. apply andb_true_iff in E. destruct E as [Hlo Hhi].
  apply N.leb_le in Hlo. apply N.leb_le in Hhi.
  rewrite (IH Hr), andb_true_r. apply andb_true_iff.
  split; apply N.leb_le; lia.
Qed.

Lemma splitFields_word (w rest : string) :
  visible w = true ->
  strings.splitFields 0 (w ++ rest)
  = (w ++ fst (strings.splitFields 0 rest), snd (strings.splitFields 0 rest)).
Proof.
  induction w as [|c w IH]; intros Hw.
  - cbn [append]. now destruct (strings.splitFields 0 rest).
  - apply visible_head in Hw. destruct Hw as [Hc Hw].
    cbn [append]. rewrite splitFields_step, spaceWidth_printable by assumption.
    rewrite (IH Hw). reflexivity.
Qed.

Lemma trimRightSpace_word (w rest : string) :
  visible w = true ->
  strings.trimRightSpace (w ++ rest) = w ++ strings.trimRightSpace rest.
Proof.
  induction w as [|c w IH]; intros Hw; [reflexivity|].
  apply visible_head in Hw. destruct Hw as [Hc Hw].
  cbn [append strings.trimRightSpace]. unfold strings.allSpace.
  rewrite trimLeftSpace_step, spaceWidth_printable by assumption.
  now rewrite (IH Hw).
Qed.

(** A line [<key> <figure>] of a cgroup file has the key and the figure
    as its two fields, and trimming leaves it as it is. *)
Lemma Fields_of_entry (key figure : string) :
  visible key = true -> key <> "" ->
  visible figure = true -> figure <> "" ->
  strings.TrimSpace (key ++ " " ++ figure) = key ++ " " ++ figure
  /\ strings.Fields (key ++ " " ++ figure) = [key; figure].
Proof.
  intros Hk Hkne Hf Hfne.
  assert (Hhead : forall w rest, visible w = true -> w <> "" ->
                                 strings.trimLeftSpace 0 (w ++ rest) = w ++ rest).
  { intros [|c w] rest Hw Hne; [now contradiction Hne|].
    apply visible_head in Hw. destruct Hw as [Hc Hw].
    cbn [append]. now rewrite trimLeftSpace_step, spaceWidth_printable by assumption. }
  assert (Hfigure : strings.trimRightSpace figure = figure).
  { rewrite <- (append_empty_r figure) at 1.
    rewrite (trimRightSpace_word figure "" Hf). apply append_empty_r. }
  split.
  - unfold strings.TrimSpace. rewrite (Hhead key _ Hk Hkne), (trimRightSpace_word key _ Hk).
    f_equal. change (" " ++ figure) with (String " " figure).
    cbn [strings.trimRightSpace]. unfold strings.allSpace.
    rewrite trimLeftSpace_step. change (strings.spaceWidth (String " " figure)) with 1%nat.
    cbv iota. rewrite <- (append_empty_r figure) at 1.
    rewrite (Hhead figure "" Hf Hfne), append_empty_r, Hfigure.
    destruct figure; [now contradiction Hfne|reflexivity].
  - unfold strings.Fields. rewrite (splitFields_word key _ Hk).
    change (" " ++ figure) with (String " " figure).
    rewrite splitFields_step. change (strings.spaceWidth (String " " figure)) with 1%nat.
    cbv iota. rewrite <- (append_empty_r figure) at 1 2.
    rewrite (splitFields_word figure "" Hf).
    cbn [strings.splitFields fst snd]. rewrite !append_empty_r.
    destruct key as [|ck key]; [now contradiction Hkne|].
    destruct figure as [|cf figure]; [now contradiction Hfne|].
    reflexivity.
Qed.

Lemma readStatLine_usage_usec (st : cpu.cpuStat) (n : Z) :
  0 <= n < 2 ^ 63 ->
  cpu.usageUsec (cpu.readStatLine st ("usage_usec " ++ strconv.Itoa n)) = n.
Proof.
  intros Hn. destruct (Itoa_digits n ltac:(lia)) as [Hd Hne].
  destruct (Fields_of_entry "usage_usec" (strconv.Itoa n) eq_refl ltac:(discriminate)
              (allDigits_visible _ Hd) Hne) as [Htrim Hfields].
  unfold cpu.readStatLine.
  change ("usage_usec " ++ strconv.Itoa n) with ("usage_usec" ++ " " ++ strconv.Itoa n).
  rewrite Htrim, Hfields.
  change (String.eqb ("usage_usec" ++ " " ++ strconv.Itoa n) "") with false. cbv iota.
  now rewrite (ParseInt_Itoa_nonneg n Hn).
Qed.

Lemma readStatLine_other (st : cpu.cpuStat) (line : string) :
  hd_error (strings.Fields (strings.TrimSpace line)) <> Some "usage_usec" ->
  cpu.usageUsec (cpu.readStatLine st line) = cpu.usageUsec st.
Proof.
  intros Hkey. unfold cpu.readStatLine.
  destruct (String.eqb (strings.TrimSpace line) ""); [reflexivity|].
  destruct (strings.Fields (strings.TrimSpace line)) as [|p0 [|p1 [|p2 more]]];
    try reflexivity.
  destruct (strconv.ParseInt p1); [|reflexivity].
  destruct (String.eqb_spec p0 "usage_usec") as [->|_]; [now contradiction Hkey|].
  destruct (String.eqb p0 "user_usec"); [reflexivity|].
  destruct (String.eqb p0 "system_usec"); reflexivity.
Qed.

(** X13.  The [usage_usec] of a reading of [cpu.stat] is the figure of the last
    line whose key is [usage_usec]: with a line [usage_usec <n>] (an
    [int64] that is not negative, in decimal) after which no line has
    [usage_usec] as its first field, the reading has [n], whatever the lines
    before and after it hold; and when [n] is not zero it is the CPU time
    the sampler takes from the reading. *)
Theorem last_usage_usec_line_wins (content : string) (before after : list string) (n : Z) :
  strings.Split content "010"
  = (before ++ ("usage_usec " ++ strconv.Itoa n)%string :: after)%list ->
  (forall line, In line after ->
                hd_error (strings.Fields (strings.TrimSpace line)) <> Some "usage_usec") ->
  0 <= n < 2 ^ 63 ->
  cpu.usageUsec (cpu.parseCPUStat content) = n
  /\ (n <> 0 -> cpu.totalUsec (cpu.parseCPUStat content) = n).
Proof.
  intros Hlines Hafter Hn.
  assert (Hfold : forall lines st,
             (forall line, In line lines ->
                hd_error (strings.Fields (strings.TrimSpace line)) <> Some "usage_usec") ->
             cpu.usageUsec (fold_left cpu.readStatLine lines st) = cpu.usageUsec st).
  { induction lines as [|line rest IH]; intros st Hnone; [reflexivity|].
    cbn [fold_left]. rewrite IH by (intros l Hl; apply Hnone; now right).
    apply readStatLine_other, Hnone. now left. }
  assert (Husage : cpu.usageUsec (cpu.parseCPUStat content) = n).
  { unfold cpu.parseCPUStat. rewrite Hlines, fold_left_app. cbn [fold_left].
    rewrite (Hfold after _ Hafter). now apply readStatLine_usage_usec. }
  split; [assumption|].
  intros Hnz. unfold cpu.totalUsec. rewrite Husage.
  apply Z.eqb_neq in Hnz. now rewrite Hnz.
Qed.

Lemma last_usage_usec_line_wins_witness :
  cpu.usageUsec (cpu.parseCPUStat "usage_usec 900000
user_usec 700000
system_usec 300000
nr_periods 0
usage_usec 1500000
") = 1500000.
Proof.
  refine (proj1 (last_usage_usec_line_wins "usage_usec 900000
user_usec 700000
system_usec 300000
nr_periods 0
usage_usec 1500000
"
                   ["usage_usec 900000"; "user_usec 700000"; "system_usec 300000";
                    "nr_periods 0"]
                   [""] 1500000 eq_refl _ _)).
  - intros line [<-|[]]. discriminate.
  - lia.
Defined.

(** X14.  A target process whose control group is found in the unified hierarchy
    and whose [cpu.stat] can be read twice is sampled there and nowhere
    else: [getUsed] returns the cgroup v2 figure -- the CPU time of the
    second reading minus that of the first, where the CPU time of a reading
    is its [usage_usec] or, when that is zero, its [user_usec] plus its
    [system_usec] -- whatever the cgroup v1 hierarchy and the host report,
    and whatever [percpu] and [cpuIndex] are. *)
Theorem target_in_unified_hierarchy_is_sampled_there (w : World) (ctx : Context)
    (pidStr root path first second : string) (p cpuCount : Z)
    (percpu : bool) (cpuIndex : Z) :
  ctx_ns_target ctx = stringValue pidStr ->
  strconv.Atoi pidStr = inl p ->
  ctx_cgroup_root ctx = stringValue root ->
  ctx_cpuCount ctx = intValue cpuCount ->
  cgroups.FindCGroupV2Path (w O) (strconv.Itoa p) root = (path, None) ->
  path <> "" ->
  readFile (w O) (filepath.Join [path; "cpu.stat"]) = Some first ->
  readFile (w 1%nat) (filepath.Join [path; "cpu.stat"]) = Some second ->
  cpu.getUsed w ctx percpu cpuIndex
  = Returns
      (PrimFloat.div
         (PrimFloat.mul
            (PrimFloat.div
               (GoInt.float64_of_int
                  (GoInt.sub64 (cpu.totalUsec (cpu.parseCPUStat second))
                               (cpu.totalUsec (cpu.parseCPUStat first))))
               1000000%float)
            100%float)
         (GoInt.float64_of_int cpuCount)).
Proof.
  intros Hpid Hatoi Hroot Hcount Hfound Hnamed Hfirst Hsecond.
  unfold cpu.getUsed. rewrite Hpid, Hcount. cbn [assertInt assertString bindOutcome].
  rewrite Hatoi, Hroot. cbn [isEmptyString].
  assert (Hfind : cgroups.FindCGroupV2Path (w O) (strconv.Itoa p)
                    (if String.eqb root "" then "/sys/fs/cgroup" else root) = (path, None)).
  { rewrite <- Hfound, <- (FindCGroupV2Path_default (w O) (strconv.Itoa p) root).
    reflexivity. }
  apply String.eqb_neq in Hnamed.
  destruct (String.eqb root "") eqn:Hempty; cbn [assertString bindOutcome];
    rewrite Hfind, Hnamed; cbn [negb];
    unfold cpu.getCGroupV2CPUUsage; rewrite Hfirst, Hsecond; reflexivity.
Qed.

Lemma target_in_unified_hierarchy_is_sampled_there_witness :
  cpu.getUsed Sample.scenarioCPU (Sample.target (stringValue "")) true 7 = Returns 25%float.
Proof.
  rewrite (target_in_unified_hierarchy_is_sampled_there Sample.scenarioCPU
             (Sample.target (stringValue "")) "1234" "" Sample.podDir
             "usage_usec 1000000
user_usec 700000
system_usec 300000
" "usage_usec 1500000
user_usec 700000
system_usec 300000
" 1234 2 true 7).
  - reflexivity.
  - reflexivity.
  - reflexivity.
  - reflexivity.
  - reflexivity.
  - reflexivity.
  - discriminate.
  - reflexivity.
  - reflexivity.
Defined.

(** X15.  A target process is never sampled on the host.  When its control group
    is found in neither hierarchy -- [/proc/<pid>/cgroup] cannot be read or
    holds no line [0::...], and the load of the cgroup v1 control group
    fails -- [getUsed] ends the process. *)
Theorem target_without_control_group_ends_the_process (w : World) (ctx : Context)
    (pidStr root : string) (p cpuCount : Z) (percpu : bool) (cpuIndex : Z)
    (err : error) :
  ctx_ns_target ctx = stringValue pidStr ->
  strconv.Atoi pidStr = inl p ->
  ctx_cgroup_root ctx = stringValue root ->
  ctx_cpuCount ctx = intValue cpuCount ->
  (snd (cgroups.FindCGroupV2Path (w O) (strconv.Itoa p) root) <> None
   \/ fst (cgroups.FindCGroupV2Path (w O) (strconv.Itoa p) root) = "") ->
  cgroupsLoad (w O) (cgroups.defaultRoot root) p = Some err ->
  cpu.getUsed w ctx percpu cpuIndex = Exits.
Proof.
  intros Hpid Hatoi Hroot Hcount Hnone Hload.
  unfold cpu.getUsed. rewrite Hpid, Hcount. cbn [assertInt assertString bindOutcome].
  rewrite Hatoi, Hroot. cbn [isEmptyString].
  rewrite <- (FindCGroupV2Path_default (w O) (strconv.Itoa p) root) in Hnone.
  unfold cgroups.defaultRoot in Hnone, Hload.
  destruct (String.eqb root "") eqn:Hempty; cbn [assertString bindOutcome];
    match goal with
    | |- context [cgroups.FindCGroupV2Path ?e ?a ?b] =>
      destruct (cgroups.FindCGroupV2Path e a b) as [path [e'|]]
    end; cbn [fst snd] in Hnone;
    unfold cpu.getUsedV1; try (now rewrite Hload);
    (destruct Hnone as [Hnone| ->]; [now contradiction Hnone|]);
    cbn [String.eqb negb]; now rewrite Hload.
Qed.

Lemma target_without_control_group_ends_the_process_witness :
  cpu.getUsed Cases.targetGone (Sample.target (stringValue "")) false 0 = Exits.
Proof.
  apply (target_without_control_group_ends_the_process Cases.targetGone
           (Sample.target (stringValue "")) "1234" "" 1234 2 false 0
           (ErrExternal "cgroups: cgroup mountpoint does not exist")).
  - reflexivity.
  - reflexivity.
  - reflexivity.
  - reflexivity.
  - left. discriminate.
  - reflexivity.
Defined.

(** ** The version of a build *)

Lemma substring_prefix_length (n : nat) (s : string) :
  (n <= String.length s)%nat -> String.length (String.substring 0 n s) = n.
Proof.
  revert s. induction n as [|n IH]; intros s Hn.
  - now destruct s.
  - destruct s as [|c r]; cbn [String.length] in Hn; [lia|].
    cbn [String.substring String.length]. rewrite IH; lia.
Qed.

Lemma substring_is_prefix (n : nat) (s : string) :
  String.prefix (String.substring 0 n s) s = true.
Proof.
  revert s. induction n as [|n IH]; intros s.
  - now destruct s.
  - destruct s as [|c r]; [reflexivity|].
    cbn [String.substring String.prefix].
    destruct (ascii_dec c c) as [_|Hne]; [apply IH|now contradiction Hne].
Qed.

Lemma prefix_refl (s : string) : String.prefix s s = true.
Proof.
  induction s as [|c r IH]; [reflexivity|].
  cbn [String.prefix]. destruct (ascii_dec c c) as [_|Hne]; [exact IH|now contradiction Hne].
Qed.

(** X16.  [GetShortCommit] has a value for every commit: at most eight bytes,
    with which the commit starts; a commit of fewer than eight bytes is
    returned whole. *)
Theorem short_commit_is_a_prefix (GitCommit : string) :
  String.prefix (version.GetShortCommit GitCommit) GitCommit = true
  /\ String.length (version.GetShortCommit GitCommit)
     = Nat.min 8 (String.length GitCommit).
Proof.
  unfold version.GetShortCommit.
  destruct (Nat.leb_spec 8 (String.length GitCommit)) as [Hlong|Hshort].
  - split; [apply substring_is_prefix|].
    rewrite substring_prefix_length by assumption. lia.
  - split; [apply prefix_refl|lia].
Qed.

(** X17.  [GetFullVersion] slices the commit without the test that
    [GetShortCommit] makes: it panics exactly when the commit has fewer than
    eight bytes, and otherwise its text shows the short commit.  A build
    that does not set the commit keeps the value [unknown], of seven bytes,
    and panics. *)
Theorem full_version_panics_on_short_commit
    (BladeVersion GitCommit builtAt GoVersion Platform Architecture : string) :
  (version.GetFullVersion BladeVersion GitCommit builtAt GoVersion Platform Architecture
   = Panics
   <-> (String.length GitCommit < 8)%nat)
  /\ ((8 <= String.length GitCommit)%nat ->
      version.GetFullVersion BladeVersion GitCommit builtAt GoVersion Platform Architecture
      = Returns ("chaosblade-exec-os " ++ BladeVersion
                 ++ " (commit: " ++ version.GetShortCommit GitCommit
                 ++ ", built: " ++ builtAt ++ ", go: " ++ GoVersion ++ ", "
                 ++ Platform ++ "/" ++ Architecture ++ ")"))
  /\ version.GetFullVersion BladeVersion version.unsetGitCommit
       builtAt GoVersion Platform Architecture
     = Panics.
Proof.
  unfold version.GetFullVersion, version.GetShortCommit, version.slicePrefix.
  split; [|split].
  - destruct (Nat.leb_spec 8 (String.length GitCommit)) as [Hlong|Hshort];
      cbn [bindOutcome]; split; try discriminate; try lia; auto.
  - intros Hlong. apply Nat.leb_le in Hlong. now rewrite Hlong.
  - reflexivity.
Qed.

(** ** The drop experiment *)

Lemma netFlowsOf_cases (networkTraffic : string) :
  network.netFlowsOf networkTraffic
  = if String.eqb networkTraffic "out" then ["OUTPUT"]
    else if String.eqb networkTraffic "in" then ["INPUT"]
         else ["INPUT"; "OUTPUT"].
Proof.
  unfold network.netFlowsOf.
  destruct (String.eqb networkTraffic "out"); [reflexivity|].
  now destruct (String.eqb networkTraffic "in").
Qed.

(** X18.  Destroying deletes what creating added: for every chain and whatever
    the flags are, the rule [stop] hands to [iptables] for a protocol is
    the rule [start] hands to it, with the option [-D] (delete) in place of
    [-A] (append). *)
Theorem drop_stop_mirrors_start
    (sourceIp destinationIp sourcePort destinationPort stringPattern netFlow : string) :
  exists tcpRule udpRule,
    network.startArgs sourceIp destinationIp sourcePort destinationPort stringPattern netFlow
    = ("-A " ++ tcpRule, "-A " ++ udpRule)
    /\ network.stopArgs sourceIp destinationIp sourcePort destinationPort stringPattern netFlow
       = ("-D " ++ tcpRule, "-D " ++ udpRule).
Proof.
  unfold network.startArgs, network.stopArgs.
  destruct (negb (String.eqb sourceIp ""));
    destruct (negb (String.eqb destinationIp ""));
    destruct (negb (String.eqb sourcePort "")); destruct (strings.Contains sourcePort ",");
    destruct (negb (String.eqb destinationPort ""));
    destruct (strings.Contains destinationPort ",");
    destruct (negb (String.eqb stringPattern ""));
    eexists; eexists; split; cbn [append]; reflexivity.
Qed.

Section DropOnAChannel.

Variable Response : Type.
Variable Success : Response -> bool.
Variable ReturnFail : network.CodeType -> string -> Response.
Variable Run : list network.Command -> string -> string -> Response.
Variables sourceIp destinationIp sourcePort destinationPort stringPattern : string.

Let startArgs := network.startArgs sourceIp destinationIp sourcePort destinationPort stringPattern.
Let stopArgs := network.stopArgs sourceIp destinationIp sourcePort destinationPort stringPattern.
Let stopFlows :=
  network.stopFlows Success Run sourceIp destinationIp sourcePort destinationPort stringPattern.
Let startFlows (networkTraffic : string) :=
  network.startFlows Success Run sourceIp destinationIp sourcePort destinationPort
    stringPattern networkTraffic.

Lemma netFlowsOf_chains (networkTraffic netFlow : string) :
  In netFlow (network.netFlowsOf networkTraffic) -> In netFlow ["INPUT"; "OUTPUT"].
Proof.
  rewrite netFlowsOf_cases.
  destruct (String.eqb networkTraffic "out"); [|destruct (String.eqb networkTraffic "in")];
    cbn; tauto.
Qed.

(** The loop of [stop] only adds to the commands run, and only deletions
    of the experiment's rules. *)
Lemma stopFlows_deletes (netFlows : list string) :
  (forall netFlow, In netFlow netFlows -> In netFlow ["INPUT"; "OUTPUT"]) ->
  forall ran response,
  exists deleted,
    snd (stopFlows netFlows ran response) = (ran ++ deleted)%list
    /\ Forall (deletesRule sourceIp destinationIp sourcePort destinationPort stringPattern)
         deleted.
Proof.
  induction netFlows as [|netFlow rest IH]; intros Hchains ran response.
  - exists []. split; [now rewrite app_nil_r|constructor].
  - assert (Htcp : deletesRule sourceIp destinationIp sourcePort destinationPort stringPattern
                     ("iptables", fst (stopArgs netFlow))).
    { exists netFlow. split; [apply Hchains; now left|]. now left. }
    assert (Hudp : deletesRule sourceIp destinationIp sourcePort destinationPort stringPattern
                     ("iptables", snd (stopArgs netFlow))).
    { exists netFlow. split; [apply Hchains; now left|]. right. now left. }
    unfold stopFlows. cbn [network.stopFlows]. fold stopArgs. fold stopFlows.
    destruct (stopArgs netFlow) as [tcpArgs udpArgs]. cbn [fst snd] in Htcp, Hudp.
    destruct (negb (Success (Run ran "iptables" tcpArgs))).
    + exists [("iptables", tcpArgs)]. split; [reflexivity|]. now repeat constructor.
    + destruct (negb (Success (Run (ran ++ [("iptables", tcpArgs)]) "iptables" udpArgs))).
      * exists [("iptables", tcpArgs); ("iptables", udpArgs)]. split.
        -- cbn [snd]. now rewrite <- app_assoc.
        -- now repeat constructor.
      * destruct (IH (fun f Hf => Hchains f (or_intror Hf))
                    ((ran ++ [("iptables", tcpArgs)]) ++ [("iptables", udpArgs)])%list
                    (Some (Run (ran ++ [("iptables", tcpArgs)]) "iptables" udpArgs)))
          as [deleted [Hran Hdeleted]].
        exists (("iptables", tcpArgs) :: ("iptables", udpArgs) :: deleted). split.
        -- rewrite Hran. now rewrite <- !app_assoc.
        -- now repeat constructor.
Qed.

Lemma stop_deletes (networkTraffic : string) (ran : list network.Command) :
  exists deleted,
    snd (network.stop Success Run sourceIp destinationIp sourcePort destinationPort
           stringPattern networkTraffic ran) = (ran ++ deleted)%list
    /\ Forall (deletesRule sourceIp destinationIp sourcePort destinationPort stringPattern)
         deleted.
Proof.
  apply (stopFlows_deletes (network.netFlowsOf networkTraffic)
           (netFlowsOf_chains networkTraffic)).
Qed.

Lemma startFlows_adds_or_deletes (networkTraffic : string) (netFlows : list string) :
  (forall netFlow, In netFlow netFlows -> In netFlow ["INPUT"; "OUTPUT"]) ->
  forall ran response,
  exists run,
    snd (startFlows networkTraffic netFlows ran response) = (ran ++ run)%list
    /\ Forall (fun command =>
                 addsRule sourceIp destinationIp sourcePort destinationPort stringPattern command
                 \/ deletesRule sourceIp destinationIp sourcePort destinationPort stringPattern
                      command)
         run.
Proof.
  induction netFlows as [|netFlow rest IH]; intros Hchains ran response.
  - exists []. split; [now rewrite app_nil_r|constructor].
  - assert (Htcp : addsRule sourceIp destinationIp sourcePort destinationPort stringPattern
                     ("iptables", fst (startArgs netFlow))).
    { exists netFlow. split; [apply Hchains; now left|]. now left. }
    assert (Hudp : addsRule sourceIp destinationIp sourcePort destinationPort stringPattern
                     ("iptables", snd (startArgs netFlow))).
    { exists netFlow. split; [apply Hchains; now left|]. right. now left. }
    unfold startFlows. cbn [network.startFlows]. fold startArgs. fold (startFlows networkTraffic).
    destruct (startArgs netFlow) as [tcpArgs udpArgs]. cbn [fst snd] in Htcp, Hudp.
    destruct (negb (Success (Run ran "iptables" tcpArgs))).
    + destruct (stop_deletes networkTraffic (ran ++ [("iptables", tcpArgs)]))
        as [deleted [Hran Hdeleted]].
      exists (("iptables", tcpArgs) :: deleted). split.
      * cbn [snd]. rewrite Hran. now rewrite <- app_assoc.
      * constructor; [now left|].
        eapply Forall_impl; [|exact Hdeleted]. intros c Hc. now right.
    + destruct (negb (Success (Run (ran ++ [("iptables", tcpArgs)]) "iptables" udpArgs))).
      * destruct (stop_deletes networkTraffic
                    ((ran ++ [("iptables", tcpArgs)]) ++ [("iptables", udpArgs)]))
          as [deleted [Hran Hdeleted]].
        rewrite Hran.
        destruct (IH (fun f Hf => Hchains f (or_intror Hf))
                    (((ran ++ [("iptables", tcpArgs)]) ++ [("iptables", udpArgs)]) ++ deleted)%list
                    (Some (Run (ran ++ [("iptables", tcpArgs)]) "iptables" udpArgs)))
          as [run [Hrun Hallowed]].
        exists (("iptables", tcpArgs) :: ("iptables", udpArgs) :: (deleted ++ run))%list. split.
        -- rewrite Hrun. now rewrite <- !app_assoc.
        -- constructor; [now left|]. constructor; [now left|].
           apply Forall_app. split; [|assumption].
           eapply Forall_impl; [|exact Hdeleted]. intros c Hc. now right.
      * destruct (IH (fun f Hf => Hchains f (or_intror Hf))
                    ((ran ++ [("iptables", tcpArgs)]) ++ [("iptables", udpArgs)])%list
                    (Some (Run (ran ++ [("iptables", tcpArgs)]) "iptables" udpArgs)))
          as [run [Hrun Hallowed]].
        exists (("iptables", tcpArgs) :: ("iptables", udpArgs) :: run). split.
        -- rewrite Hrun. now rewrite <- !app_assoc.
        -- constructor; [now left|]. constructor; [now left|]. assumption.
Qed.

(** X19.  On every channel and for all flags, the drop experiment runs nothing
    but its own rules: [stop] and [start] only add to the commands run;
    what [stop] adds are [iptables] deletions of the experiment's rules on
    the chains INPUT and OUTPUT, and what [start] adds are appends of these
    rules and, where it rolls back, deletions of them. *)
Theorem drop_runs_only_its_own_rules (networkTraffic : string) (ran : list network.Command) :
  (exists deleted,
     snd (network.stop Success Run sourceIp destinationIp sourcePort destinationPort
            stringPattern networkTraffic ran) = (ran ++ deleted)%list
     /\ Forall (deletesRule sourceIp destinationIp sourcePort destinationPort stringPattern)
          deleted)
  /\ (exists run,
        snd (network.start Success ReturnFail Run sourceIp destinationIp sourcePort
               destinationPort stringPattern networkTraffic ran) = (ran ++ run)%list
        /\ Forall (fun command =>
                     addsRule sourceIp destinationIp sourcePort destinationPort stringPattern
                       command
                     \/ deletesRule sourceIp destinationIp sourcePort destinationPort
                          stringPattern command)
             run).
Proof.
  split; [apply stop_deletes|].
  unfold network.start.
  destruct (String.eqb destinationIp "" && String.eqb sourceIp ""
            && String.eqb destinationPort "" && String.eqb sourcePort ""
            && String.eqb stringPattern "").
  - exists []. split; [now rewrite app_nil_r|constructor].
  - apply (startFlows_adds_or_deletes networkTraffic (network.netFlowsOf networkTraffic)
             (netFlowsOf_chains networkTraffic)).
Qed.

(** The first command of [stop] is the deletion of the tcp rule on the
    first chain. *)
Lemma stop_first_command (networkTraffic : string) (ran : list network.Command) :
  exists netFlow deleted,
    In netFlow ["INPUT"; "OUTPUT"]
    /\ snd (network.stop Success Run sourceIp destinationIp sourcePort destinationPort
              stringPattern networkTraffic ran)
       = (ran ++ ("iptables", fst (stopArgs netFlow)) :: deleted)%list.
Proof.
  unfold network.stop.
  pose proof (netFlowsOf_chains networkTraffic) as Hchains.
  destruct (network.netFlowsOf networkTraffic) as [|netFlow rest] eqn:Hflows.
  - rewrite netFlowsOf_cases in Hflows.
    destruct (String.eqb networkTraffic "out"); [discriminate|].
    destruct (String.eqb networkTraffic "in"); discriminate.
  - exists netFlow. cbn [network.stopFlows]. fold stopArgs. fold stopFlows.
    destruct (stopArgs netFlow) as [tcpArgs udpArgs]. cbn [fst].
    destruct (negb (Success (Run ran "iptables" tcpArgs))).
    + exists []. split; [apply Hchains; now left|reflexivity].
    + destruct (negb (Success (Run (ran ++ [("iptables", tcpArgs)]) "iptables" udpArgs))).
      * exists [("iptables", udpArgs)]. split; [apply Hchains; now left|].
        cbn [snd]. now rewrite <- app_assoc.
      * destruct (stopFlows_deletes rest (fun f Hf => Hchains f (or_intror Hf))
                    ((ran ++ [("iptables", tcpArgs)]) ++ [("iptables", udpArgs)])%list
                    (Some (Run (ran ++ [("iptables", tcpArgs)]) "iptables" udpArgs)))
          as [deleted [Hran _]].
        exists (("iptables", udpArgs) :: deleted). split; [apply Hchains; now left|].
        rewrite Hran. now rewrite <- !app_assoc.
Qed.

End DropOnAChannel.

(** X20.  Creating is refused without a selector, destroying is not.  With none
    of the flags for addresses, ports and pattern set, [start] returns the
    failure "must specify ip or port or string flag" and runs no command;
    [stop] with the same flags goes ahead, and its first command deletes
    the rule that drops all tcp traffic of a chain. *)
Theorem drop_without_selector (Response : Type) (Success : Response -> bool)
    (ReturnFail : network.CodeType -> string -> Response)
    (Run : list network.Command -> string -> string -> Response)
    (networkTraffic : string) (ran : list network.Command) :
  network.start Success ReturnFail Run "" "" "" "" "" networkTraffic ran
  = (Some (ReturnFail network.OsCmdExecFailed "must specify ip or port or string flag"), ran)
  /\ exists netFlow deleted,
       In netFlow ["INPUT"; "OUTPUT"]
       /\ snd (network.stop Success Run "" "" "" "" "" networkTraffic ran)
          = (ran ++ ("iptables", ("-D " ++ netFlow ++ " -p tcp -j DROP")%string) :: deleted)%list.
Proof.
  split; [reflexivity|].
  destruct (stop_first_command Response Success ReturnFail Run "" "" "" "" ""
              networkTraffic ran)
    as (netFlow & deleted & Hchain & Hran).
  exists netFlow, deleted. split; [assumption|]. rewrite Hran.
  destruct Hchain as [<-|[<-|[]]]; reflexivity.
Qed.

Section DropOnAnObligingChannel.

Variable Response : Type.
Variable Success : Response -> bool.
Variable ReturnFail : network.CodeType -> string -> Response.
Variable Run : list network.Command -> string -> string -> Response.
Variables sourceIp destinationIp sourcePort destinationPort stringPattern : string.

(** Every command run through the channel succeeds. *)
Hypothesis every_command_succeeds :
  forall ran script args, Success (Run ran script args) = true.

Let startArgs := network.startArgs sourceIp destinationIp sourcePort destinationPort stringPattern.
Let stopArgs := network.stopArgs sourceIp destinationIp sourcePort destinationPort stringPattern.

Lemma stopFlows_all_succeed (netFlows : list string) :
  forall ran response,
  exists last,
    network.stopFlows Success Run sourceIp destinationIp sourcePort destinationPort
      stringPattern netFlows ran response
    = (last, (ran ++ flat_map (ruleCommands stopArgs) netFlows)%list)
    /\ (netFlows = [] /\ last = response
        \/ exists r, last = Some r /\ Success r = true).
Proof.
  induction netFlows as [|netFlow rest IH]; intros ran response.
  - exists response. split; [cbn; now rewrite app_nil_r|]. now left.
  - cbn [network.stopFlows flat_map]. fold stopArgs.
    change (ruleCommands stopArgs netFlow)
      with [("iptables", fst (stopArgs netFlow)); ("iptables", snd (stopArgs netFlow))].
    destruct (stopArgs netFlow) as [tcpArgs udpArgs]. cbn [fst snd].
    rewrite !every_command_succeeds. cbn [negb].
    destruct (IH ((ran ++ [("iptables", tcpArgs)]) ++ [("iptables", udpArgs)])%list
                (Some (Run (ran ++ [("iptables", tcpArgs)]) "iptables" udpArgs)))
      as [last [Hrun Hlast]].
    exists last. split.
    + rewrite Hrun. f_equal. now rewrite <- !app_assoc.
    + right. destruct Hlast as [[_ ->]|Hlast]; [|assumption].
      eexists. split; [reflexivity|apply every_command_succeeds].
Qed.

Lemma startFlows_all_succeed (networkTraffic : string) (netFlows : list string) :
  forall ran response,
  exists last,
    network.startFlows Success Run sourceIp destinationIp sourcePort destinationPort
      stringPattern networkTraffic netFlows ran response
    = (last, (ran ++ flat_map (ruleCommands startArgs) netFlows)%list)
    /\ (netFlows = [] /\ last = response
        \/ exists r, last = Some r /\ Success r = true).
Proof.
  induction netFlows as [|netFlow rest IH]; intros ran response.
  - exists response. split; [cbn; now rewrite app_nil_r|]. now left.
  - cbn [network.startFlows flat_map]. fold startArgs.
    change (ruleCommands startArgs netFlow)
      with [("iptables", fst (startArgs netFlow)); ("iptables", snd (startArgs netFlow))].
    destruct (startArgs netFlow) as [tcpArgs udpArgs]. cbn [fst snd].
    rewrite !every_command_succeeds. cbn [negb].
    destruct (IH ((ran ++ [("iptables", tcpArgs)]) ++ [("iptables", udpArgs)])%list
                (Some (Run (ran ++ [("iptables", tcpArgs)]) "iptables" udpArgs)))
      as [last [Hrun Hlast]].
    exists last. split.
    + rewrite Hrun. f_equal. now rewrite <- !app_assoc.
    + right. destruct Hlast as [[_ ->]|Hlast]; [|assumption].
      eexists. split; [reflexivity|apply every_command_succeeds].
Qed.

(** X21.  On a channel on which every command succeeds, [start] with at least
    one selector and [stop] run, chain by chain, the tcp rule and then the
    udp rule, and return a successful response: for the traffic [in] on
    the chain INPUT, for [out] on OUTPUT, and for every other value of the
    flag on INPUT and then OUTPUT. *)
Theorem drop_on_an_obliging_channel (networkTraffic : string) (ran : list network.Command) :
  let netFlows :=
    if String.eqb networkTraffic "out" then ["OUTPUT"]
    else if String.eqb networkTraffic "in" then ["INPUT"]
         else ["INPUT"; "OUTPUT"] in
  ((sourceIp <> "" \/ destinationIp <> "" \/ sourcePort <> "" \/ destinationPort <> ""
    \/ stringPattern <> "") ->
   exists response,
     network.start Success ReturnFail Run sourceIp destinationIp sourcePort destinationPort
       stringPattern networkTraffic ran
     = (Some response, (ran ++ flat_map (ruleCommands startArgs) netFlows)%list)
     /\ Success response = true)
  /\ (exists response,
        network.stop Success Run sourceIp destinationIp sourcePort destinationPort
          stringPattern networkTraffic ran
        = (Some response, (ran ++ flat_map (ruleCommands stopArgs) netFlows)%list)
        /\ Success response = true).
Proof.
  intros netFlows.
  assert (Hflows : network.netFlowsOf networkTraffic = netFlows) by apply netFlowsOf_cases.
  assert (Hsome : netFlows <> []).
  { unfold netFlows. destruct (String.eqb networkTraffic "out"); [discriminate|].
    destruct (String.eqb networkTraffic "in"); discriminate. }
  split.
  - intros Hselector. unfold network.start.
    replace (String.eqb destinationIp "" && String.eqb sourceIp ""
             && String.eqb destinationPort "" && String.eqb sourcePort ""
             && String.eqb stringPattern "") with false.
    + rewrite Hflows.
      destruct (startFlows_all_succeed networkTraffic netFlows ran None)
        as [last [Hrun [[Hnil _]|[r [-> Hr]]]]]; [now contradiction Hsome|].
      exists r. split; assumption.
    + symmetry. apply not_true_is_false. intros Hall.
      repeat (apply andb_true_iff in Hall; destruct Hall as [Hall ?]).
      repeat match goal with H : String.eqb _ "" = true |- _ => apply String.eqb_eq in H end.
      tauto.
  - unfold network.stop. rewrite Hflows.
    destruct (stopFlows_all_succeed netFlows ran None)
      as [last [Hrun [[Hnil _]|[r [-> Hr]]]]]; [now contradiction Hsome|].
    exists r. split; assumption.
Qed.

End DropOnAnObligingChannel.

Lemma drop_on_an_obliging_channel_witness :
  exists response,
    network.start fst Cases.ReturnFail Cases.obliging "" "10.0.0.7" "" "80,443" "" "out" []
    = (Some response,
       [("iptables", "-A OUTPUT -p tcp -d 10.0.0.7 -m multiport --dports 80,443 -j DROP");
        ("iptables", "-A OUTPUT -p udp -d 10.0.0.7 -m multiport --dports 80,443 -j DROP")])
    /\ fst response = true.
Proof.
  refine (proj1 (drop_on_an_obliging_channel Cases.Response fst Cases.ReturnFail Cases.obliging
                   "" "10.0.0.7" "" "80,443" "" _ "out" []) _).
  - reflexivity.
  - right. left. discriminate.
Defined.
